(** * web-hunter: evidence aggregation and fact checking

    A shallow embedding of [web-hunter/scripts/fact-checker.py] and
    [web-hunter/scripts/search-aggregator.py], followed by the properties
    of the verdict engine, the contradiction detector, the freshness
    filter, the deduplicator, the ranker and the fan-in step.

    Conventions of the embedding:
    - Python [str] is [string]; the model covers ASCII text ([lower],
      [split] and the regular expression class [\w] act on ASCII only).
    - Python [int] is [Z]; Python [float] is an exact rational [Q], values
      being compared with [==].
    - [datetime] is a wall-clock reading in microseconds together with an
      optional UTC offset; [timedelta] is a number of microseconds.
    - The network is not modelled: what the adapters returned, and the
      readings of the clock, are arguments of the embedded functions.
      Console output is dropped. *)

From Stdlib Require Import String Ascii List ZArith QArith Qround Lia Lqa.
From Stdlib Require Import DecimalString Sorting.Sorted Sorting.Permutation.
From stdpp Require Import base gmap strings list.

Close Scope Q_scope.
Local Open Scope string_scope.

(* ===================================================================== *)
(** * Part I: the embedding                                               *)
(* ===================================================================== *)

(** ** Python string and number primitives used by both scripts *)

Module Py.

(** [c.lower()] on one ASCII character. *)
Definition lower_char (c : ascii) : ascii :=
  let n := nat_of_ascii c in
  if (65 <=? n)%nat && (n <=? 90)%nat then ascii_of_nat (n + 32) else c.

(** [s.lower()] *)
Fixpoint lower (s : string) : string :=
  match s with
  | EmptyString => EmptyString
  | String c s' => String (lower_char c) (lower s')
  end.

(** [c.isspace()] on ASCII: tab, line feed, vertical tab, form feed,
    carriage return, the four separators 0x1c-0x1f and the space. *)
Definition isspace (c : ascii) : bool :=
  let n := nat_of_ascii c in
  ((9 <=? n)%nat && (n <=? 13)%nat) || ((28 <=? n)%nat && (n <=? 32)%nat).

(** [s.split()]: maximal runs of non-space characters, in order.
    [cur] is the token being read. *)
Fixpoint split_go (s cur : string) : list string :=
  match s with
  | EmptyString => if decide (cur = "") then [] else [cur]
  | String c s' =>
      if isspace c
      then (if decide (cur = "") then split_go s' "" else cur :: split_go s' "")
      else split_go s' (cur +:+ String c "")
  end.

Definition split (s : string) : list string := split_go s "".

(** [s.startswith(p)] *)
Fixpoint startswith (p s : string) : bool :=
  match p, s with
  | EmptyString, _ => true
  | String a p', String b s' => if decide (a = b) then startswith p' s' else false
  | String _ _, EmptyString => false
  end.

(** [sub in s] for two strings: [sub] occurs in [s] as a substring. *)
Fixpoint str_in (sub s : string) : bool :=
  startswith sub s ||
  match s with
  | EmptyString => false
  | String _ s' => str_in sub s'
  end.

(** [any(w in text for w in words)] *)
Definition any_in (words : list string) (text : string) : bool :=
  existsb (fun w => str_in w text) words.

(** [c] matches [\w] (ASCII): a letter, a digit or the underscore. *)
Definition is_word_char (c : ascii) : bool :=
  let n := nat_of_ascii c in
  ((48 <=? n)%nat && (n <=? 57)%nat) || ((65 <=? n)%nat && (n <=? 90)%nat)
  || ((97 <=? n)%nat && (n <=? 122)%nat) || (n =? 95)%nat.

(** [re.sub(r'[^\w]', '', s)] *)
Fixpoint strip_non_word (s : string) : string :=
  match s with
  | EmptyString => EmptyString
  | String c s' =>
      if is_word_char c then String c (strip_non_word s') else strip_non_word s'
  end.

(** [min(a, b)] and [max(a, b)] on numbers. *)
Definition min (a b : Q) : Q := if Qle_bool a b then a else b.
Definition max (a b : Q) : Q := if Qle_bool b a then a else b.

(** [a < b] on numbers. *)
Definition lt (a b : Q) : bool := negb (Qle_bool b a).

(** Rounding to the nearest integer, ties to the even one. *)
Definition round_half_even (q : Q) : Z :=
  let fl := Qfloor q in
  match Qcompare (q - inject_Z fl) (1 # 2) with
  | Lt => fl
  | Gt => (fl + 1)%Z
  | Eq => if Z.even fl then fl else (fl + 1)%Z
  end.

Definition digits (z : Z) : string :=
  NilZero.string_of_uint (N.to_uint (Z.to_N z)).

(** [f"{q:.0%}"]: the value times 100, no decimals, then a percent sign. *)
Definition format_pct (q : Q) : string :=
  if lt q 0
  then "-" +:+ digits (round_half_even (- q * 100)) +:+ "%"
  else digits (round_half_even (q * 100)) +:+ "%".

(** [l[:top]] for an integer [top] of either sign. *)
Definition slice_to {A} (l : list A) (top : Z) : list A :=
  if (0 <=? top)%Z then take (Z.to_nat top) l
  else take (Z.to_nat (Z.of_nat (length l) + top)) l.

(** A value stored in a result dictionary: a string or [None]. *)
Inductive value := VStr (s : string) | VNone.

(** How an f-string renders a value. *)
Definition fstr (v : value) : string :=
  match v with VStr s => s | VNone => "None" end.

(** [d.get(key, '')] *)
Definition get (d : gmap string value) (key : string) : value :=
  default (VStr "") (d !! key).

End Py.

(** ** fact-checker.py *)

Module FactChecker.
Import Py.

(** A source is one of the dictionaries built by [_search_reddit] and
    [_search_hackernews]. *)
Abbreviation source := (gmap string value).

Record contradiction := {
  ctype : string;
  confirm_count : nat;
  deny_count : nat;
  sample_confirm : source;
  sample_deny : source
}.

Record FactCheckResult := {
  claim : string;
  verdict : string;
  confidence : Q;
  sources : list source;
  contradictions : list contradiction;
  explanation : string;
  checked_at : Z
}.

Definition SUSPICIOUS_WORDS : list string :=
  ["viral"; "shocking"; "you won't believe"; "doctors hate"; "secret"].

Definition confirm_words : list string :=
  ["confirmed"; "true"; "yes"; "indeed"; "announced"; "official"].

Definition deny_words : list string :=
  ["false"; "fake"; "rumor"; "not true"; "denied"; "debunked"].

(** [claim_keywords = set(claim.lower().split())] *)
Definition claim_keywords (claim : string) : gset string :=
  list_to_set (split (lower claim)).

(** The three counters of [analyze_sentiment]. *)
Record signals := {
  confirm_signals : Z;
  deny_signals : Z;
  total_mentions : Z
}.

Definition no_signals : signals :=
  {| confirm_signals := 0; deny_signals := 0; total_mentions := 0 |}.

(** Does the text mention a keyword of the claim? *)
Definition mentions (kws : gset string) (text_lower : string) : bool :=
  any_in (elements kws) text_lower.

(** One iteration of the loop over [texts]. *)
Definition scan_text (kws : gset string) (st : signals) (text : string) : signals :=
  let text_lower := lower text in
  if mentions kws text_lower then
    let total := (total_mentions st + 1)%Z in
    let confirm :=
      if any_in confirm_words text_lower
      then (confirm_signals st + 2)%Z else confirm_signals st in
    let deny :=
      if any_in deny_words text_lower
      then (deny_signals st + 2)%Z else deny_signals st in
    let deny :=
      if any_in SUSPICIOUS_WORDS text_lower then (deny + 1)%Z else deny in
    {| confirm_signals := confirm; deny_signals := deny; total_mentions := total |}
  else st.

(** The whole loop. *)
Definition count_signals (texts : list string) (claim : string) : signals :=
  fold_left (scan_text (claim_keywords claim)) texts no_signals.

(** The decision taken after the loop. *)
Definition decide_verdict (st : signals) : string * Q :=
  let c := confirm_signals st in
  let d := deny_signals st in
  let t := total_mentions st in
  if (t =? 0)%Z then ("unverified", 0%Q)
  else if (d * 2 <? c)%Z then ("true", min (inject_Z c / inject_Z t)%Q 1%Q)
  else if (c * 2 <? d)%Z then ("false", min (inject_Z d / inject_Z t)%Q 1%Q)
  else if (0 <? c)%Z || (0 <? d)%Z then ("partially_true", (1 # 2)%Q)
  else ("unverified", (3 # 10)%Q).

Definition analyze_sentiment (texts : list string) (claim : string) : string * Q :=
  decide_verdict (count_signals texts claim).

(** [f"{source.get('title', '')} {source.get('text', '')}"] *)
Definition raw_text (s : source) : string :=
  fstr (get s "title") +:+ " " +:+ fstr (get s "text").

(** The text the detector scans: the same, lower-cased. *)
Definition source_text (s : source) : string := lower (raw_text s).

Definition detector_confirm_words : list string :=
  ["confirmed"; "true"; "announced"; "official"].

Definition detector_deny_words : list string :=
  ["false"; "fake"; "denied"; "debunked"].

(** One iteration of the grouping loop of [find_contradictions]; the
    state is the pair [(confirm_sources, deny_sources)]. *)
Definition group_step (st : list source * list source) (s : source)
  : list source * list source :=
  let text := source_text s in
  if any_in detector_confirm_words text then ((st.1 ++ [s])%list, st.2)
  else if any_in detector_deny_words text then (st.1, (st.2 ++ [s])%list)
  else st.

Definition group_sources (srcs : list source) : list source * list source :=
  fold_left group_step srcs ([], []).

Definition find_contradictions (srcs : list source) (claim : string)
  : list contradiction :=
  let '(confirm_sources, deny_sources) := group_sources srcs in
  match confirm_sources, deny_sources with
  | c :: _, d :: _ =>
      [ {| ctype := "conflicting_reports";
           confirm_count := length confirm_sources;
           deny_count := length deny_sources;
           sample_confirm := c;
           sample_deny := d |} ]
  | _, _ => []
  end.

Definition generate_explanation (verdict : string) (confidence : Q)
    (srcs : list source) (contradictions : list contradiction) : string :=
  if decide (verdict = "true") then
    if lt (8 # 10) confidence
    then "Факт подтверждён множественными авторитетными источниками (уверенность: "
         +:+ format_pct confidence
         +:+ "). Найдены официальные заявления или публикации в надёжных СМИ."
    else "Факт, скорее всего, верен, но требует дополнительной проверки (уверенность: "
         +:+ format_pct confidence
         +:+ "). Есть упоминания в источниках, но не все они авторитетны."
  else if decide (verdict = "false") then
    if lt (8 # 10) confidence
    then "Факт опровергнут. Найдены прямые опровержения от официальных источников или фактчекинговые публикации (уверенность: "
         +:+ format_pct confidence +:+ ")."
    else "Факт, скорее всего, ложен (уверенность: "
         +:+ format_pct confidence
         +:+ "). Обнаружены признаки фейка или недостоверной информации."
  else if decide (verdict = "partially_true") then
    "Факт частично верен или требует уточнения (уверенность: "
    +:+ format_pct confidence
    +:+ "). Возможны противоречивые интерпретации или недостаёт контекста."
  else
    "Недостаточно данных для проверки факта (уверенность: "
    +:+ format_pct confidence
    +:+ "). Не найдено достаточно упоминаний в доступных источниках.".

(** The note appended when the threshold is not met. *)
Definition threshold_note (confidence min_confidence : Q) : string :=
  " Уверенность (" +:+ format_pct confidence +:+ ") ниже порога ("
  +:+ format_pct min_confidence +:+ ").".

(** [check], after [search_for_claim] returned [srcs] and with [now] the
    reading of the clock at the end. *)
Definition check (srcs : list source) (now : Z) (claim : string)
    (min_confidence : Q) : FactCheckResult :=
  let texts := map raw_text srcs in
  let '(verdict, confidence) := analyze_sentiment texts claim in
  let contradictions := find_contradictions srcs claim in
  let explanation := generate_explanation verdict confidence srcs contradictions in
  let low :=
    lt confidence min_confidence
    && bool_decide (verdict ∈ ["true"; "false"]) in
  {| claim := claim;
     verdict := if low then "unverified" else verdict;
     confidence := confidence;
     sources := take 5 srcs;
     contradictions := contradictions;
     explanation :=
       if low then explanation +:+ threshold_note confidence min_confidence
       else explanation;
     checked_at := now |}.

End FactChecker.

(** ** search-aggregator.py *)

Module SearchAggregator.
Import Py.

(** A [datetime]: the wall-clock reading in microseconds and, for an
    aware value, the UTC offset. *)
Record datetime := {
  wall_us : Z;
  tzinfo : option Z
}.

(** [d.replace(tzinfo=None)] keeps the wall-clock reading. *)
Definition replace_tzinfo_none (d : datetime) : datetime :=
  {| wall_us := wall_us d; tzinfo := None |}.

Record SearchResult := {
  title : string;
  url : string;
  snippet : string;
  source : string;
  published_at : option datetime;
  score : Q;
  sentiment : string
}.

Definition set_score (r : SearchResult) (s : Q) : SearchResult :=
  {| title := title r; url := url r; snippet := snippet r; source := source r;
     published_at := published_at r; score := s; sentiment := sentiment r |}.

(** [timedelta] values, in microseconds. *)
Definition hours (n : Z) : Z := (n * 3600 * 1000000)%Z.
Definition days (n : Z) : Z := (n * 24 * 3600 * 1000000)%Z.
Definition weeks (n : Z) : Z := (n * 7 * 24 * 3600 * 1000000)%Z.

Definition freshness_map : gmap string Z :=
  {[ "hour" := hours 1; "day" := days 1; "week" := weeks 1; "month" := days 30 ]}.

(** [now - r.published_at.replace(tzinfo=None)], with [now] the naive
    reading of the local clock. *)
Definition age_us (now : Z) (p : datetime) : Z :=
  (now - wall_us (replace_tzinfo_none p))%Z.

(** The condition of the comprehension in [filter_by_freshness]. *)
Definition is_fresh (now delta : Z) (r : SearchResult) : bool :=
  match published_at r with
  | Some p => (age_us now p <=? delta)%Z
  | None => false
  end.

Definition filter_by_freshness (now : Z) (results : list SearchResult)
    (freshness : string) : list SearchResult :=
  let delta := default (weeks 1) (freshness_map !! freshness) in
  List.filter (is_fresh now delta) results.

(** [re.sub(r'[^\w]', '', result.title.lower())] *)
Definition normalized_title (r : SearchResult) : string :=
  strip_non_word (lower (title r)).

(** The loop of [remove_duplicates], from the state
    [(seen_urls, seen_titles)]; the result is what is appended to
    [unique] from here on. *)
Fixpoint dedup_loop (seen_urls seen_titles : gset string)
    (results : list SearchResult) : list SearchResult :=
  match results with
  | [] => []
  | result :: rest =>
      if decide (url result ∈ seen_urls) then dedup_loop seen_urls seen_titles rest
      else if decide (normalized_title result ∈ seen_titles)
      then dedup_loop seen_urls seen_titles rest
      else result :: dedup_loop ({[url result]} ∪ seen_urls)
                                ({[normalized_title result]} ∪ seen_titles) rest
  end.

Definition remove_duplicates (results : list SearchResult) : list SearchResult :=
  dedup_loop ∅ ∅ results.

(** [(now - published_at).total_seconds()] *)
Definition total_seconds (td : Z) : Q := (td # 1000000)%Q.

(** The score that the first loop of [rank_results] stores in a result. *)
Definition new_score (now : Z) (r : SearchResult) : Q :=
  let s := score r in
  let s :=
    match published_at r with
    | Some p =>
        let age := total_seconds (age_us now p) in
        let freshness_bonus := (max 0 (1000000 - age) / 10000)%Q in
        (s + freshness_bonus)%Q
    | None => s
    end in
  if negb (bool_decide (snippet r = "")) && (100 <? String.length (snippet r))%nat
  then (s + 10)%Q else s.

Definition rescore (now : Z) (r : SearchResult) : SearchResult :=
  set_score r (new_score now r).

(** [sorted(results, key=lambda x: x.score, reverse=True)]: a stable
    sort, results of equal score keep the order they came in.  [x] is
    placed in front of the first result whose score is not greater. *)
Fixpoint insert_by_score (x : SearchResult) (l : list SearchResult)
  : list SearchResult :=
  match l with
  | [] => [x]
  | y :: l' =>
      if Qle_bool (score y) (score x) then x :: y :: l'
      else y :: insert_by_score x l'
  end.

Definition sorted_by_score (l : list SearchResult) : list SearchResult :=
  foldr insert_by_score [] l.

Definition rank_results (now : Z) (results : list SearchResult)
  : list SearchResult :=
  sorted_by_score (map (rescore now) results).

(** What [asyncio.gather(..., return_exceptions=True)] holds for one
    task: the list it returned or the exception it raised (a time-out
    is an exception). *)
Inductive outcome :=
| Returned (results : list SearchResult)
| Raised (exc : string).

(** What each adapter does when it is run. *)
Record adapters := {
  search_reddit : outcome;
  search_hackernews : outcome;
  search_arxiv : outcome
}.

(** The tasks created for the enabled sources, in the order of the code,
    and their outcomes in that order. *)
Definition gather (net : adapters) (sources : list string) : list outcome :=
  ((if bool_decide ("reddit" ∈ sources) then [search_reddit net] else []) ++
   (if bool_decide ("hackernews" ∈ sources) then [search_hackernews net] else []) ++
   (if bool_decide ("arxiv" ∈ sources) then [search_arxiv net] else []))%list.

(** The fan-in loop: only outcomes that are lists are merged. *)
Definition extend_with (all_results : list SearchResult) (o : outcome)
  : list SearchResult :=
  match o with
  | Returned l => (all_results ++ l)%list
  | Raised _ => all_results
  end.

Definition merge (results_lists : list outcome) : list SearchResult :=
  fold_left extend_with results_lists [].

(** [search]; [now_filter] and [now_rank] are the two readings of the
    clock, in [filter_by_freshness] and in [rank_results]. *)
Definition search (net : adapters) (now_filter now_rank : Z)
    (sources : list string) (freshness : string) (top : Z)
  : list SearchResult :=
  let all_results := merge (gather net sources) in
  let filtered := filter_by_freshness now_filter all_results freshness in
  let unique := remove_duplicates filtered in
  let ranked := rank_results now_rank unique in
  slice_to ranked top.

End SearchAggregator.

(** ** The vocabulary of the properties of fact-checker.py *)

Module FactCheckerSpec.
Import Py FactChecker.

(** The tokens of a claim, in the order in which they occur. *)
Definition claim_tokens (claim : string) : list string := split (lower claim).

(** An evidence text is counted when its lower-cased form contains at
    least one token of the claim. *)
Definition counted (claim text : string) : bool :=
  any_in (claim_tokens claim) (lower text).

Definition counted_items (texts : list string) (claim : string) : list string :=
  List.filter (counted claim) texts.

(** How many of the texts satisfy [p]. *)
Definition count_where (p : string → bool) (texts : list string) : Z :=
  Z.of_nat (length (List.filter p texts)).

(** How many cues of a list occur in a text. *)
Definition cue_matches (cues : list string) (text_lower : string) : Z :=
  Z.of_nat (length (List.filter (fun w => str_in w text_lower) cues)).

(** The accumulation rule read per matching cue: every cue that occurs
    in a counted text adds its own points. *)
Definition per_cue_accumulation (kws : gset string) (st : signals)
    (text : string) : Prop :=
  mentions kws (lower text) = true →
  confirm_signals (scan_text kws st text)
    = (confirm_signals st + 2 * cue_matches confirm_words (lower text))%Z
  ∧ deny_signals (scan_text kws st text)
    = (deny_signals st + 2 * cue_matches deny_words (lower text)
       + cue_matches SUSPICIOUS_WORDS (lower text))%Z.

(** What the detector looks for in a source. *)
Definition matches_confirm (s : source) : bool :=
  any_in detector_confirm_words (source_text s).

Definition matches_deny (s : source) : bool :=
  any_in detector_deny_words (source_text s).

(** The groups of the detector: a source is confirming when a confirming
    cue occurs in it, denying when no confirming cue but a denying cue
    occurs in it. *)
Definition is_confirming (s : source) : bool := matches_confirm s.

Definition is_denying (s : source) : bool :=
  negb (matches_confirm s) && matches_deny s.

(** The classification rule that makes a source with cues of both kinds
    neutral: such a source is in neither group. *)
Definition both_is_neutral (srcs : list source) : Prop :=
  ∀ s, In s srcs → matches_confirm s = true → matches_deny s = true →
       ¬ In s (group_sources srcs).1 ∧ ¬ In s (group_sources srcs).2.

(** Sample inputs. *)
Definition mk_source (title text : string) : source :=
  {[ "title" := VStr title; "text" := VStr text ]}.

Definition two_cue_text : string := "Merger confirmed in official filing".

Definition mixed_sources : list source :=
  [ mk_source "Merger confirmed? Fake, says CEO" "";
    mk_source "Merger story debunked" "" ].

(** Three confirming sources and seven that only mention the claim. *)
Definition weak_sources : list source :=
  (replicate 3 (mk_source "Merger confirmed" "")
   ++ replicate 7 (mk_source "Merger" "talks"))%list.

End FactCheckerSpec.

(** ** The vocabulary of the properties of search-aggregator.py *)

Module SearchAggregatorSpec.
Import Py SearchAggregator.

(** The four horizons and their durations in microseconds: an hour, a
    day, seven days, thirty days. *)
Definition horizons : list (string * Z) :=
  [ ("hour", 3600000000%Z); ("day", 86400000000%Z);
    ("week", 604800000000%Z); ("month", 2592000000000%Z) ].

(** The order of the ranker's output read with tie-breaks: [a] may stand
    directly before [b] when its score is greater or, the scores being
    equal, when it is more recent or, the dates being equal too, when its
    url is not greater.  Nothing is asked of a tie in which a date is
    absent. *)
Definition tie_break_ok (a b : SearchResult) : bool :=
  lt (score b) (score a)
  || (Qeq_bool (score a) (score b)
      && match published_at a, published_at b with
         | Some p, Some q =>
             (wall_us q <? wall_us p)%Z
             || ((wall_us p =? wall_us q)%Z && String.leb (url a) (url b))
         | _, _ => true
         end).

Fixpoint tie_break_sorted (l : list SearchResult) : bool :=
  match l with
  | a :: (b :: _) as l' => tie_break_ok a b && tie_break_sorted l'
  | _ => true
  end.

(** Descending order of score. *)
Definition score_ge (a b : SearchResult) : Prop := (score b <= score a)%Q.

(** The results whose score is [s]. *)
Definition with_score (s : Q) (l : list SearchResult) : list SearchResult :=
  List.filter (fun r => Qeq_bool (score r) s) l.

(** What an outcome contributes to the merged results. *)
Definition evidence_of (o : outcome) : list SearchResult :=
  match o with
  | Returned l => l
  | Raised _ => []
  end.

(** The stages after the fan-in. *)
Definition pipeline (now_filter now_rank : Z) (freshness : string) (top : Z)
    (all_results : list SearchResult) : list SearchResult :=
  slice_to
    (rank_results now_rank
       (remove_duplicates (filter_by_freshness now_filter all_results freshness)))
    top.

(** Sample inputs. *)
Definition mk_result (title url : string) (published : option Z) (score : Q)
  : SearchResult :=
  {| title := title; url := url; snippet := ""; source := "hackernews";
     published_at :=
       match published with
       | Some t => Some {| wall_us := t; tzinfo := None |}
       | None => None
       end;
     score := score; sentiment := "neutral" |}.

(** The clock, in microseconds, and two results of equal score that are
    both too old for a freshness bonus. *)
Definition sample_now : Z := 5000000000000%Z.
Definition older : SearchResult :=
  mk_result "First report" "https://a.example/1" (Some 0%Z) 5.
Definition newer : SearchResult :=
  mk_result "Second report" "https://b.example/2" (Some 1000000000000%Z) 5.

Definition fresh_result : SearchResult :=
  mk_result "Fresh" "https://c.example/3" (Some (sample_now - 1000)%Z) 1.
Definition undated_result : SearchResult :=
  mk_result "Undated" "https://d.example/4" None 1.

Definition one_failing : adapters :=
  {| search_reddit := Returned [fresh_result; undated_result];
     search_hackernews := Raised "TimeoutError";
     search_arxiv := Returned [] |}.

End SearchAggregatorSpec.

(** ** fact-checker.py: the searches of [search_for_claim] *)

Module FactCheckerSearch.
Import Py FactChecker.

(** What awaiting one of the two searches gives: the list it returned or
    the exception it raised. *)
Inductive fetched :=
| Found (results : list source)
| Failed (exc : string).

(** What [_search_reddit] and [_search_hackernews] do when awaited. *)
Record searches := {
  _search_reddit : fetched;
  _search_hackernews : fetched
}.

(** One [try: results.extend(await ...) except Exception: print(...)]. *)
Definition try_extend (results : list source) (f : fetched) : list source :=
  match f with
  | Found l => (results ++ l)%list
  | Failed _ => results
  end.

Definition search_for_claim (net : searches) : list source :=
  let results := [] in
  let results := try_extend results (_search_reddit net) in
  let results := try_extend results (_search_hackernews net) in
  results.

(** [check] with its search: [sources = await self.search_for_claim(claim)]
    and then the rest of [check]. *)
Definition check_claim (net : searches) (now : Z) (claim : string)
    (min_confidence : Q) : FactCheckResult :=
  check (search_for_claim net) now claim min_confidence.

End FactCheckerSearch.

(** ** More vocabulary *)

Module MoreSpec.
Import Py FactChecker SearchAggregator.

(** Every character of [s] satisfies [P]. *)
Fixpoint string_forall (P : ascii → bool) (s : string) : bool :=
  match s with
  | EmptyString => true
  | String c s' => P c && string_forall P s'
  end.

(** A character that [lower] leaves alone. *)
Definition is_lowered (c : ascii) : bool := bool_decide (lower_char c = c).

Definition not_space (c : ascii) : bool := negb (isspace c).

(** The four verdicts. *)
Definition verdicts : list string :=
  ["true"; "false"; "partially_true"; "unverified"].

(** The names of the sources that [search] knows. *)
Definition known_sources : list string := ["reddit"; "hackernews"; "arxiv"].

(** The urls and the normalized titles of a list of results. *)
Definition urls (l : list SearchResult) : list string := map url l.
Definition titles (l : list SearchResult) : list string := map normalized_title l.

End MoreSpec.

(** ** Elapsed time *)

Module ElapsedSpec.
Import Py SearchAggregator SearchAggregatorSpec.

(** The instant that a [datetime] denotes, in microseconds of UTC, on a
    host whose local time is [host_offset] microseconds ahead of UTC: an
    aware value carries its own offset, a naive one (what
    [datetime.now()] and [datetime.fromtimestamp] return) is a reading of
    the local clock. *)
Definition instant_us (host_offset : Z) (d : datetime) : Z :=
  match tzinfo d with
  | Some off => (wall_us d - off)%Z
  | None => (wall_us d - host_offset)%Z
  end.

(** [now - publishedAt] as the time that has passed since publication,
    [now] being the naive reading of the local clock. *)
Definition elapsed_us (host_offset now : Z) (p : datetime) : Z :=
  (instant_us host_offset {| wall_us := now; tzinfo := None |}
   - instant_us host_offset p)%Z.

(** The freshness policy read on elapsed time: a result is kept exactly
    when it has a date and the time passed since then is at most the
    duration of the horizon. *)
Definition elapsed_policy (host_offset now : Z) (results : list SearchResult)
    (freshness : string) (delta : Z) : Prop :=
  ∀ r, In r (filter_by_freshness now results freshness)
       ↔ In r results
         ∧ ∃ p, published_at r = Some p
                ∧ (elapsed_us host_offset now p <= delta)%Z.

(** By how much the age that the code computes differs from the time
    passed: the offset of the host minus the offset of the date. *)
Definition offset_error (host_offset : Z) (p : datetime) : Z :=
  match tzinfo p with
  | Some off => (host_offset - off)%Z
  | None => 0%Z
  end.

(** Sample inputs: a result of [search_arxiv], whose date is aware with
    offset 0 ([fromisoformat] of a string ending in "+00:00"). *)
Definition arxiv_result (published : datetime) : SearchResult :=
  {| title := "A preprint"; url := "http://arxiv.org/abs/2601.00001v1";
     snippet := ""; source := "arxiv"; published_at := Some published;
     score := 0; sentiment := "neutral" |}.

Definition utc_plus_3 : Z := hours 3.
Definition utc_minus_3 : Z := (- hours 3)%Z.
Definition half_hour : Z := 1800000000%Z.

(** Published half an hour before [sample_now] is read on a host at
    UTC+3. *)
Definition recent_date : datetime :=
  {| wall_us := (sample_now - utc_plus_3 - half_hour)%Z; tzinfo := Some 0%Z |}.

(** Published three and a half hours before [sample_now] is read on a
    host at UTC-3. *)
Definition old_date : datetime :=
  {| wall_us := (sample_now - utc_minus_3 - hours 3 - half_hour)%Z;
     tzinfo := Some 0%Z |}.

End ElapsedSpec.

(* ===================================================================== *)
(** * Part II: properties                                                 *)
(* ===================================================================== *)

(** ** Facts about the string primitives *)

Module PyFacts.
Import Py.

Lemma append_cons c a b : String c a +:+ b = String c (a +:+ b).
Proof. reflexivity. Qed.

Lemma append_nil_l a : "" +:+ a = a.
Proof. reflexivity. Qed.

Lemma append_assoc a b c : (a +:+ b) +:+ c = a +:+ (b +:+ c).
Proof.
  induction a as [|x a IH]; [reflexivity|].
  rewrite !append_cons. by rewrite IH.
Qed.

Lemma append_eq_nil a b : a +:+ b = "" → a = "" ∧ b = "".
Proof. destruct a; [rewrite append_nil_l; auto | rewrite append_cons; discriminate]. Qed.

(** [startswith] recognises exactly the prefixes. *)
Lemma startswith_spec p s : startswith p s = true ↔ ∃ t, s = p +:+ t.
Proof.
  revert s. induction p as [|a p IH]; intros s; simpl.
  - split; [intros _; by exists s | done].
  - destruct s as [|b s].
    + split; [done | intros [t Ht]; rewrite append_cons in Ht; discriminate].
    + case_decide as Hab.
      * subst b. rewrite IH. split; intros [t Ht]; exists t.
        -- rewrite append_cons. by rewrite Ht.
        -- rewrite append_cons in Ht. by injection Ht.
      * split; [done | intros [t Ht]; rewrite append_cons in Ht].
        injection Ht as ? ?. by destruct Hab.
Qed.

(** [str_in] recognises exactly the substrings. *)
Lemma str_in_spec p s : str_in p s = true ↔ ∃ a b, s = a +:+ p +:+ b.
Proof.
  induction s as [|c s IH]; simpl.
  - rewrite orb_false_r, startswith_spec. split.
    + intros [t Ht]. by exists "", t.
    + intros (a & b & Hab). symmetry in Hab.
      apply append_eq_nil in Hab as [-> Hpb]. by exists b.
  - rewrite orb_true_iff, IH, startswith_spec. split.
    + intros [[t Ht] | (a & b & Hab)].
      * by exists "", t.
      * exists (String c a), b. rewrite append_cons. by rewrite Hab.
    + intros (a & b & Hab). destruct a as [|x a].
      * left. by exists b.
      * right. rewrite append_cons in Hab. injection Hab as _ Hs. by exists a, b.
Qed.

(** A text that contains [u +:+ v] contains [v]: substring matching
    cannot tell a cue from a longer cue that ends with it. *)
Lemma str_in_append_r u v s : str_in (u +:+ v) s = true → str_in v s = true.
Proof.
  rewrite !str_in_spec. intros (a & b & ->).
  exists (a +:+ u), b. by rewrite !append_assoc.
Qed.

Lemma any_in_spec ws t : any_in ws t = true ↔ ∃ w, In w ws ∧ str_in w t = true.
Proof. unfold any_in. apply existsb_exists. Qed.

Lemma any_in_false ws t :
  any_in ws t = false ↔ ∀ w, In w ws → str_in w t = false.
Proof.
  rewrite <- not_true_iff_false, any_in_spec. split.
  - intros Hn w Hw. apply not_true_iff_false. intros Hs. apply Hn. eauto.
  - intros Hall (w & Hw & Hs). rewrite (Hall w Hw) in Hs. discriminate.
Qed.

(** Membership tests only depend on the members. *)
Lemma any_in_ext ws ws' t :
  (∀ w, In w ws ↔ In w ws') → any_in ws t = any_in ws' t.
Proof.
  intros Heq. destruct (any_in ws' t) eqn:E.
  - apply any_in_spec in E as (w & Hw & Hs). apply any_in_spec.
    exists w. split; [by apply Heq | done].
  - rewrite any_in_false in E. apply any_in_false.
    intros w Hw. apply E. by apply Heq.
Qed.

Lemma min_le_r a b : (min a b <= b)%Q.
Proof.
  unfold min. destruct (Qle_bool a b) eqn:E.
  - by apply Qle_bool_iff.
  - apply Qle_refl.
Qed.

Lemma min_glb c a b : (c <= a)%Q → (c <= b)%Q → (c <= min a b)%Q.
Proof. unfold min. by destruct (Qle_bool a b). Qed.

Lemma lt_spec a b : lt a b = true ↔ (a < b)%Q.
Proof.
  unfold lt. rewrite negb_true_iff, <- not_true_iff_false, Qle_bool_iff.
  split; [apply Qnot_le_lt | apply Qlt_not_le].
Qed.

End PyFacts.

(** ** The verdict engine *)

Module VerdictEngine.
Import Py PyFacts FactChecker FactCheckerSpec.

(** Iterating over the set of keywords or over the list of tokens finds
    the same mentions. *)
Lemma mentions_tokens claim text_lower :
  mentions (claim_keywords claim) text_lower
  = any_in (claim_tokens claim) text_lower.
Proof.
  unfold mentions, claim_keywords, claim_tokens. apply any_in_ext.
  intros w. rewrite <- !list_elem_of_In, elem_of_elements.
  apply elem_of_list_to_set.
Qed.

(** [any] sees whether a cue occurs, not how many do. *)
Lemma any_in_cue_matches cues t :
  Z.min 1 (cue_matches cues t) = if any_in cues t then 1%Z else 0%Z.
Proof.
  unfold cue_matches, any_in.
  induction cues as [|w ws IH]; simpl; [done|].
  destruct (str_in w t); simpl; [lia|exact IH].
Qed.

Lemma count_where_cons p t texts :
  count_where p (t :: texts)
  = ((if p t then 1 else 0) + count_where p texts)%Z.
Proof.
  unfold count_where. cbn [List.filter].
  destruct (p t); cbn [length]; lia.
Qed.

Lemma count_where_ext p q texts :
  (∀ t, p t = q t) → count_where p texts = count_where q texts.
Proof. intros E. unfold count_where. by rewrite (List.filter_ext p q E). Qed.

(** The loop, from any state of the counters. *)
Lemma scan_fold kws texts st :
  fold_left (scan_text kws) texts st =
  {| confirm_signals := confirm_signals st + 2 * count_where
       (fun t => mentions kws (lower t) && any_in confirm_words (lower t)) texts;
     deny_signals := deny_signals st
       + 2 * count_where
           (fun t => mentions kws (lower t) && any_in deny_words (lower t)) texts
       + count_where
           (fun t => mentions kws (lower t) && any_in SUSPICIOUS_WORDS (lower t)) texts;
     total_mentions := total_mentions st
       + count_where (fun t => mentions kws (lower t)) texts |}%Z.
Proof.
  revert st. induction texts as [|t texts IH]; intros st.
  - destruct st. unfold count_where. simpl. f_equal; lia.
  - cbn [fold_left]. rewrite IH, !count_where_cons. unfold scan_text.
    destruct (mentions kws (lower t)); cbn [andb].
    + destruct (any_in confirm_words (lower t)),
               (any_in deny_words (lower t)),
               (any_in SUSPICIOUS_WORDS (lower t));
        cbn [confirm_signals deny_signals total_mentions]; f_equal; lia.
    + destruct st; cbn [confirm_signals deny_signals total_mentions]; f_equal; lia.
Qed.

(** The counters after the loop of [analyze_sentiment]. *)
Lemma count_signals_spec texts claim :
  count_signals texts claim =
  {| confirm_signals := 2 * count_where
       (fun t => counted claim t && any_in confirm_words (lower t)) texts;
     deny_signals :=
       2 * count_where (fun t => counted claim t && any_in deny_words (lower t)) texts
       + count_where (fun t => counted claim t && any_in SUSPICIOUS_WORDS (lower t)) texts;
     total_mentions := Z.of_nat (length (counted_items texts claim)) |}%Z.
Proof.
  assert (E : ∀ q, count_where
              (fun t => mentions (claim_keywords claim) (lower t) && q t) texts
            = count_where (fun t => counted claim t && q t) texts).
  { intros q. apply count_where_ext. intros t. unfold counted.
    by rewrite mentions_tokens. }
  unfold count_signals. rewrite scan_fold, !E.
  cbn [no_signals confirm_signals deny_signals total_mentions].
  rewrite !Z.add_0_l. do 2 f_equal.
  apply count_where_ext. intros t. apply mentions_tokens.
Qed.

Lemma count_where_nonneg p texts : (0 <= count_where p texts)%Z.
Proof. unfold count_where. lia. Qed.

Lemma counted_items_nil texts claim :
  counted_items texts claim = [] ↔ ∀ t, In t texts → counted claim t = false.
Proof.
  unfold counted_items. induction texts as [|t texts IH]; simpl.
  - split; [intros _ ? [] | done].
  - destruct (counted claim t) eqn:E.
    + split; [done|]. intros H. specialize (H t (or_introl eq_refl)). congruence.
    + rewrite IH. split.
      * intros H u [<- | Hu]; [done | by apply H].
      * intros H u Hu. apply H. by right.
Qed.

Lemma inject_Z_nonneg z : (0 <= z)%Z → (0 <= inject_Z z)%Q.
Proof. intros H. change 0%Q with (inject_Z 0). by rewrite <- Zle_Qle. Qed.

Lemma ratio_bounds c t :
  (0 <= c)%Z → (0 <= t)%Z →
  (0 <= min (inject_Z c / inject_Z t) 1)%Q ∧ (min (inject_Z c / inject_Z t) 1 <= 1)%Q.
Proof.
  intros Hc Ht. split; [|apply min_le_r].
  apply min_glb; [|discriminate].
  unfold Qdiv. apply Qmult_le_0_compat; [|apply Qinv_le_0_compat];
    by apply inject_Z_nonneg.
Qed.

(** The decision taken from given counters. *)
Lemma decide_verdict_cases st :
  let c := confirm_signals st in
  let d := deny_signals st in
  let t := total_mentions st in
  (0 <= c)%Z → (0 <= d)%Z → (0 <= t)%Z →
  (t = 0%Z → decide_verdict st = ("unverified", 0%Q)) ∧
  (t ≠ 0%Z →
     ((c > 2 * d)%Z →
        decide_verdict st = ("true", min (inject_Z c / inject_Z t) 1)) ∧
     ((d > 2 * c)%Z →
        decide_verdict st = ("false", min (inject_Z d / inject_Z t) 1)) ∧
     ((c > 0)%Z ∨ (d > 0)%Z → ¬ (c > 2 * d)%Z → ¬ (d > 2 * c)%Z →
        decide_verdict st = ("partially_true", (1 # 2)%Q)) ∧
     (c = 0%Z → d = 0%Z → decide_verdict st = ("unverified", (3 # 10)%Q))) ∧
  (0 <= (decide_verdict st).2)%Q ∧ ((decide_verdict st).2 <= 1)%Q.
Proof.
  intros c d t Hc Hd Ht. unfold decide_verdict. fold c d t.
  destruct (Z.eqb_spec t 0) as [E0|E0].
  { split; [done|]. split; [done|]. split; discriminate. }
  split; [done|].
  destruct (Z.ltb_spec (d * 2) c) as [E1|E1].
  { split; [|apply ratio_bounds; lia].
    intros _. repeat split; try done; lia. }
  destruct (Z.ltb_spec (c * 2) d) as [E2|E2].
  { split; [|apply ratio_bounds; lia].
    intros _. repeat split; try done; lia. }
  destruct (Z.ltb_spec 0 c) as [E3|E3]; destruct (Z.ltb_spec 0 d) as [E4|E4];
    cbn [orb]; (split; [|split; discriminate]); intros _;
    repeat split; try done; lia.
Qed.

Lemma count_signals_nonneg texts claim :
  (0 <= confirm_signals (count_signals texts claim))%Z
  ∧ (0 <= deny_signals (count_signals texts claim))%Z
  ∧ (0 <= total_mentions (count_signals texts claim))%Z.
Proof.
  rewrite count_signals_spec. cbn [confirm_signals deny_signals total_mentions].
  pose proof (count_where_nonneg
    (fun t => counted claim t && any_in confirm_words (lower t)) texts).
  pose proof (count_where_nonneg
    (fun t => counted claim t && any_in deny_words (lower t)) texts).
  pose proof (count_where_nonneg
    (fun t => counted claim t && any_in SUSPICIOUS_WORDS (lower t)) texts).
  lia.
Qed.

(** The confidence that [analyze_sentiment] returns is a proportion. *)
Lemma analyze_sentiment_bounds texts claim :
  (0 <= (analyze_sentiment texts claim).2)%Q
  ∧ ((analyze_sentiment texts claim).2 <= 1)%Q.
Proof.
  destruct (count_signals_nonneg texts claim) as (Hc & Hd & Ht).
  by destruct (decide_verdict_cases (count_signals texts claim) Hc Hd Ht) as (_ & _ & Hb).
Qed.

(** C1. The verdict decision rule.  When no evidence text contains a
    token of the claim the verdict is "unverified" with confidence 0.
    Otherwise, with [countedItems] the number of texts that contain a
    token: a confirm signal above twice the deny signal gives "true"
    with confidence [min(confirmSignal / countedItems, 1)]; a deny
    signal above twice the confirm signal gives "false" with confidence
    [min(denySignal / countedItems, 1)]; a positive signal without
    either dominating gives "partially_true" with confidence 1/2; two
    zero signals give "unverified" with confidence 3/10.  The confidence
    always lies between 0 and 1. *)
Theorem verdict_rule (texts : list string) (claim : string) :
  let st := count_signals texts claim in
  let confirmSignal := confirm_signals st in
  let denySignal := deny_signals st in
  let countedItems := Z.of_nat (length (counted_items texts claim)) in
  let r := analyze_sentiment texts claim in
  ((∀ t, In t texts → counted claim t = false) → r = ("unverified", 0%Q)) ∧
  ((∃ t, In t texts ∧ counted claim t = true) →
     ((confirmSignal > 2 * denySignal)%Z →
        r = ("true", min (inject_Z confirmSignal / inject_Z countedItems) 1)) ∧
     ((denySignal > 2 * confirmSignal)%Z →
        r = ("false", min (inject_Z denySignal / inject_Z countedItems) 1)) ∧
     ((confirmSignal > 0)%Z ∨ (denySignal > 0)%Z →
        ¬ (confirmSignal > 2 * denySignal)%Z →
        ¬ (denySignal > 2 * confirmSignal)%Z →
        r = ("partially_true", (1 # 2)%Q)) ∧
     (confirmSignal = 0%Z → denySignal = 0%Z →
        r = ("unverified", (3 # 10)%Q))) ∧
  (0 <= r.2)%Q ∧ (r.2 <= 1)%Q.
Proof.
  intros st confirmSignal denySignal countedItems r.
  assert (Et : countedItems = total_mentions st).
  { subst countedItems st. by rewrite count_signals_spec. }
  destruct (count_signals_nonneg texts claim) as (Hc & Hd & Ht).
  destruct (decide_verdict_cases st Hc Hd Ht) as (H0 & Hpos & Hb).
  change (decide_verdict st) with r in H0, Hpos, Hb.
  rewrite <- Et in H0, Hpos.
  split; [|split; [|exact Hb]].
  - intros Hnone. apply H0. apply counted_items_nil in Hnone.
    subst countedItems. by rewrite Hnone.
  - intros (t & Hin & Hcount). apply Hpos.
    assert (In t (counted_items texts claim)) as Hl.
    { apply filter_In. by split. }
    subst countedItems. destruct (counted_items texts claim); [destruct Hl|].
    cbn [length]. lia.
Qed.

(** The rule at work on one confirming text. *)
Lemma verdict_rule_witness :
  analyze_sentiment ["Merger confirmed"] "merger"
  = ("true", min (inject_Z 2 / inject_Z 1) 1).
Proof.
  destruct (verdict_rule ["Merger confirmed"] "merger") as (_ & H & _).
  destruct H as (Htrue & _).
  - exists "Merger confirmed". split; [by left | by vm_compute].
  - apply Htrue. by vm_compute.
Defined.

(** C2, as amended.  A counted text adds 2 to the confirm signal when at
    least one confirming cue occurs in it, 2 to the deny signal when at
    least one denying cue occurs in it and 1 more to the deny signal when
    at least one suspicious cue occurs in it, however many cues of a list
    occur; it adds 1 to the number of counted items. *)
Theorem accumulation_per_item (kws : gset string) (st : signals) (text : string) :
  mentions kws (lower text) = true →
  confirm_signals (scan_text kws st text)
    = (confirm_signals st + 2 * Z.min 1 (cue_matches confirm_words (lower text)))%Z
  ∧ deny_signals (scan_text kws st text)
    = (deny_signals st + 2 * Z.min 1 (cue_matches deny_words (lower text))
       + Z.min 1 (cue_matches SUSPICIOUS_WORDS (lower text)))%Z
  ∧ total_mentions (scan_text kws st text) = (total_mentions st + 1)%Z.
Proof.
  intros Hm. unfold scan_text. rewrite Hm, !any_in_cue_matches.
  destruct (any_in confirm_words (lower text)),
           (any_in deny_words (lower text)),
           (any_in SUSPICIOUS_WORDS (lower text));
    cbn [confirm_signals deny_signals total_mentions]; repeat split; lia.
Qed.

Lemma accumulation_per_item_witness :
  confirm_signals (scan_text (claim_keywords "merger") no_signals two_cue_text) = 2%Z
  ∧ cue_matches confirm_words (lower two_cue_text) = 2%Z.
Proof.
  destruct (accumulation_per_item (claim_keywords "merger") no_signals two_cue_text)
    as (Hc & _ & _); [by vm_compute|].
  split; [rewrite Hc|]; by vm_compute.
Defined.

(** C2, as stated, fails: a counted text in which two confirming cues
    occur ("confirmed" and "official") adds 2 to the confirm signal, not
    2 for each of them. *)
Lemma accumulation_not_per_cue :
  ¬ per_cue_accumulation (claim_keywords "merger") no_signals two_cue_text.
Proof.
  unfold per_cue_accumulation. intros H.
  destruct H as [Hc _]; [by vm_compute|].
  vm_compute in Hc. discriminate Hc.
Qed.

End VerdictEngine.

(** ** The threshold of [check] *)

Module Threshold.
Import Py PyFacts FactChecker FactCheckerSpec.

(** Every template states the confidence it is given. *)
Lemma generate_explanation_reports v c srcs ctr :
  ∃ pre post, generate_explanation v c srcs ctr = pre +:+ format_pct c +:+ post.
Proof.
  unfold generate_explanation.
  repeat case_decide; try destruct (lt (8 # 10) c); eexists _, _; reflexivity.
Qed.

(** The confidence of a result is the computed one, downgrade or not, and
    lies between 0 and 1. *)
Lemma check_confidence srcs now claim min_confidence :
  confidence (check srcs now claim min_confidence)
  = (analyze_sentiment (map raw_text srcs) claim).2
  ∧ (0 <= confidence (check srcs now claim min_confidence))%Q
  ∧ (confidence (check srcs now claim min_confidence) <= 1)%Q.
Proof.
  assert (E : confidence (check srcs now claim min_confidence)
              = (analyze_sentiment (map raw_text srcs) claim).2).
  { unfold check. by destruct (analyze_sentiment (map raw_text srcs) claim). }
  split; [exact E|]. rewrite E. apply VerdictEngine.analyze_sentiment_bounds.
Qed.

(** C3. The threshold downgrade.  When the computed verdict is "true" or
    "false" and the computed confidence is strictly below
    [min_confidence], the result has verdict "unverified", its confidence
    is the computed one, and its explanation is the explanation of the
    computed verdict, which states the computed confidence, followed by
    the note that the threshold was not met. *)
Theorem threshold_downgrade (srcs : list source) (now : Z) (claim : string)
    (min_confidence : Q) (v : string) (c : Q) :
  analyze_sentiment (map raw_text srcs) claim = (v, c) →
  v = "true" ∨ v = "false" →
  (c < min_confidence)%Q →
  let r := check srcs now claim min_confidence in
  verdict r = "unverified"
  ∧ confidence r = c
  ∧ explanation r
    = generate_explanation v c srcs (find_contradictions srcs claim)
      +:+ threshold_note c min_confidence
  ∧ ∃ pre post,
      explanation r
      = pre +:+ format_pct c +:+ post
        +:+ " Уверенность (" +:+ format_pct c +:+ ") ниже порога ("
        +:+ format_pct min_confidence +:+ ").".
Proof.
  intros Ha Hv Hlt r.
  assert (Hlow : lt c min_confidence && bool_decide (v ∈ ["true"; "false"]) = true).
  { apply andb_true_iff. split; [by apply lt_spec|].
    apply bool_decide_eq_true. destruct Hv as [-> | ->]; set_solver. }
  assert (Hr : r = {| claim := claim; verdict := "unverified"; confidence := c;
                      sources := take 5 srcs;
                      contradictions := find_contradictions srcs claim;
                      explanation :=
                        generate_explanation v c srcs (find_contradictions srcs claim)
                        +:+ threshold_note c min_confidence;
                      checked_at := now |}).
  { subst r. unfold check. rewrite Ha, Hlow. reflexivity. }
  rewrite Hr. cbn [verdict confidence explanation].
  repeat split.
  destruct (generate_explanation_reports v c srcs (find_contradictions srcs claim))
    as (pre & post & ->).
  exists pre, post. by rewrite !append_assoc.
Qed.

(** Three confirming sources among ten that mention the claim give
    "true" at 60%; with a threshold of 90% the result is "unverified" and
    still carries the 60%. *)
Lemma threshold_downgrade_witness :
  verdict (check weak_sources 0 "merger" (9 # 10)) = "unverified"
  ∧ confidence (check weak_sources 0 "merger" (9 # 10)) = (6 # 10)%Q
  ∧ format_pct (6 # 10) = "60%".
Proof.
  destruct (threshold_downgrade weak_sources 0 "merger" (9 # 10) "true" (6 # 10))
    as (Hv & Hc & _); [by vm_compute | by left | by vm_compute |].
  split; [exact Hv | split; [exact Hc | by vm_compute]].
Defined.

End Threshold.

(** ** The contradiction detector *)

Module Detector.
Import Py PyFacts FactChecker FactCheckerSpec.

(** The grouping loop, from any state of the two lists. *)
Lemma group_fold srcs a b :
  fold_left group_step srcs (a, b)
  = ((a ++ List.filter is_confirming srcs)%list,
     (b ++ List.filter is_denying srcs)%list).
Proof.
  revert a b. induction srcs as [|s srcs IH]; intros a b.
  - cbn [fold_left List.filter]. by rewrite !app_nil_r.
  - cbn [fold_left List.filter]. unfold group_step at 2.
    unfold is_confirming, is_denying, matches_confirm, matches_deny.
    cbn [fst snd].
    destruct (any_in detector_confirm_words (source_text s)); cbn [negb andb].
    + rewrite IH. by rewrite <- app_assoc.
    + destruct (any_in detector_deny_words (source_text s)); rewrite IH.
      * by rewrite <- app_assoc.
      * done.
Qed.

Lemma group_sources_filter srcs :
  group_sources srcs = (List.filter is_confirming srcs, List.filter is_denying srcs).
Proof. unfold group_sources. by rewrite group_fold. Qed.

(** C9, as amended.  A source in which a confirming cue occurs is in the
    confirming group whether or not a denying cue occurs in it as well; a
    source is in the denying group when no confirming cue and at least
    one denying cue occurs in it; the other sources are in neither group.
    The two counts of a contradiction record are the sizes of these
    groups. *)
Theorem detector_classification (srcs : list source) (claim : string) :
  group_sources srcs = (List.filter is_confirming srcs, List.filter is_denying srcs)
  ∧ ∀ c, In c (find_contradictions srcs claim) →
      confirm_count c = length (List.filter is_confirming srcs)
      ∧ deny_count c = length (List.filter is_denying srcs).
Proof.
  split; [apply group_sources_filter|].
  intros c. unfold find_contradictions. rewrite group_sources_filter.
  destruct (List.filter is_confirming srcs) as [|x xs];
    [intros []|].
  destruct (List.filter is_denying srcs) as [|y ys]; [intros []|].
  intros [<- | []]. done.
Qed.

Lemma detector_classification_witness :
  ∃ c, In c (find_contradictions mixed_sources "merger")
       ∧ confirm_count c = 1%nat ∧ deny_count c = 1%nat.
Proof.
  destruct (detector_classification mixed_sources "merger") as [_ H].
  destruct (find_contradictions mixed_sources "merger") as [|c cs] eqn:E;
    [by vm_compute in E|].
  exists c. split; [by left|].
  destruct (H c (or_introl eq_refl)) as [H1 H2].
  rewrite H1, H2. by vm_compute.
Defined.

(** C9, as stated, fails: a source with "confirmed" and "fake" in its
    title is put in the confirming group. *)
Lemma both_cues_is_confirming : ¬ both_is_neutral mixed_sources.
Proof.
  intros H.
  destruct (H (mk_source "Merger confirmed? Fake, says CEO" "")) as [Hn _];
    [by left | by vm_compute | by vm_compute |].
  apply Hn. rewrite group_sources_filter.
  apply filter_In. split; [by left | by vm_compute].
Qed.

End Detector.

(** ** Substring matching and negations *)

Module Negation.
Import Py PyFacts FactChecker FactCheckerSpec.

Lemma not_true_is_true t : str_in "not true" t = true → str_in "true" t = true.
Proof. apply (str_in_append_r "not " "true"). Qed.

(** C10. Substring matching counts a negation twice.  A counted text
    whose lower-cased form contains "not true" adds 2 to the confirm
    signal (the cue "true" occurs in it) and 2 to the deny signal (the
    cue "not true"), besides the point of a suspicious cue if there is
    one; and the detector puts a source whose text contains "not true"
    in the confirming group, not in the denying group. *)
Theorem not_true_counts_both_ways (kws : gset string) (st : signals)
    (text : string) (srcs : list source) (s : source) :
  (mentions kws (lower text) = true →
   str_in "not true" (lower text) = true →
   confirm_signals (scan_text kws st text) = (confirm_signals st + 2)%Z
   ∧ deny_signals (scan_text kws st text)
     = (deny_signals st + 2
        + (if any_in SUSPICIOUS_WORDS (lower text) then 1 else 0))%Z)
  ∧ (In s srcs →
     str_in "not true" (source_text s) = true →
     In s (group_sources srcs).1 ∧ ¬ In s (group_sources srcs).2).
Proof.
  split.
  - intros Hm Hnt.
    assert (Hc : any_in confirm_words (lower text) = true).
    { apply any_in_spec. exists "true". split; [|by apply not_true_is_true].
      cbn. tauto. }
    assert (Hd : any_in deny_words (lower text) = true).
    { apply any_in_spec. exists "not true". split; [cbn; tauto | done]. }
    unfold scan_text. rewrite Hm, Hc, Hd.
    cbn [confirm_signals deny_signals].
    destruct (any_in SUSPICIOUS_WORDS (lower text)); split; lia.
  - intros Hin Hnt.
    assert (Hc : matches_confirm s = true).
    { apply any_in_spec. exists "true". split; [|by apply not_true_is_true].
      cbn. tauto. }
    rewrite Detector.group_sources_filter.
    cbn [fst snd]. rewrite !filter_In. unfold is_confirming, is_denying.
    rewrite Hc. split; [done|]. intros [_ Hf]. discriminate Hf.
Qed.

Lemma not_true_counts_both_ways_witness :
  (confirm_signals (scan_text (claim_keywords "merger") no_signals
                      "The merger is NOT true") = 2%Z
   ∧ deny_signals (scan_text (claim_keywords "merger") no_signals
                     "The merger is NOT true") = 2%Z)
  ∧ In (mk_source "The merger is not true" "")
       (group_sources [mk_source "The merger is not true" ""]).1.
Proof.
  destruct (not_true_counts_both_ways (claim_keywords "merger") no_signals
              "The merger is NOT true" [mk_source "The merger is not true" ""]
              (mk_source "The merger is not true" "")) as [Hv Hd].
  split.
  - destruct Hv as [Hc Hdn]; [by vm_compute | by vm_compute |].
    split; [exact Hc | exact Hdn].
  - destruct Hd as [Hin _]; [by left | by vm_compute | exact Hin].
Defined.

End Negation.

(** ** The freshness filter *)

Module Freshness.
Import Py SearchAggregator SearchAggregatorSpec.

Lemma horizon_lookup f d : In (f, d) horizons → freshness_map !! f = Some d.
Proof.
  unfold horizons. cbn [In].
  intros [E | [E | [E | [E | []]]]]; injection E as <- <-; by vm_compute.
Qed.

Lemma filter_by_freshness_horizon now results f d :
  In (f, d) horizons →
  filter_by_freshness now results f = List.filter (is_fresh now d) results.
Proof.
  intros H%horizon_lookup. unfold filter_by_freshness. by rewrite H.
Qed.

Lemma is_fresh_spec now delta r :
  is_fresh now delta r = true
  ↔ ∃ p, published_at r = Some p ∧ (now - wall_us p <= delta)%Z.
Proof.
  unfold is_fresh, age_us, replace_tzinfo_none. cbn [wall_us].
  destruct (published_at r) as [p|].
  - rewrite Z.leb_le. split; [intros H; by exists p | by intros (q & [= <-] & H)].
  - split; [done | by intros (q & [=] & _)].
Qed.

(** The freshness policy on wall-clock readings.  For each of the four
    horizons, a result is in the output of the filter exactly when it is
    in the input, has a publication date and the reading of the local
    clock minus the wall-clock reading of that date (its offset dropped)
    is at most the duration of the horizon; a result without a
    publication date is not in the output. *)
Theorem freshness_policy (now : Z) (results : list SearchResult)
    (freshness : string) (delta : Z) :
  In (freshness, delta) horizons →
  (∀ r, In r (filter_by_freshness now results freshness)
        ↔ In r results
          ∧ ∃ p, published_at r = Some p ∧ (now - wall_us p <= delta)%Z)
  ∧ (∀ r, published_at r = None →
          ¬ In r (filter_by_freshness now results freshness)).
Proof.
  intros Hh.
  assert (Hin : ∀ r, In r (filter_by_freshness now results freshness)
                     ↔ In r results
                       ∧ ∃ p, published_at r = Some p
                              ∧ (now - wall_us p <= delta)%Z).
  { intros r. rewrite (filter_by_freshness_horizon _ _ _ _ Hh).
    by rewrite filter_In, is_fresh_spec. }
  split; [exact Hin|].
  intros r Hnone [_ (p & Hp & _)]%Hin. congruence.
Qed.

Lemma freshness_policy_witness :
  In fresh_result (filter_by_freshness sample_now [fresh_result; undated_result] "hour")
  ∧ ¬ In undated_result
        (filter_by_freshness sample_now [fresh_result; undated_result] "hour").
Proof.
  destruct (freshness_policy sample_now [fresh_result; undated_result]
              "hour" 3600000000%Z) as [Hin Hout]; [by left|].
  split.
  - apply Hin. split; [by left|]. eexists. split; [reflexivity | by vm_compute].
  - by apply Hout.
Defined.

(** C7. Freshness monotonicity.  Of two horizons, the one with the
    shorter duration keeps a part of what the longer one keeps: every
    result in the output for the first is in the output for the second,
    and in the same order. *)
Theorem freshness_monotone (now : Z) (E : list SearchResult)
    (h1 h2 : string) (d1 d2 : Z) :
  In (h1, d1) horizons → In (h2, d2) horizons → (d1 < d2)%Z →
  (∀ r, In r (filter_by_freshness now E h1) → In r (filter_by_freshness now E h2))
  ∧ filter_by_freshness now E h1 `sublist_of` filter_by_freshness now E h2.
Proof.
  intros H1 H2 Hlt.
  rewrite (filter_by_freshness_horizon _ _ _ _ H1),
          (filter_by_freshness_horizon _ _ _ _ H2).
  assert (Himp : ∀ r, is_fresh now d1 r = true → is_fresh now d2 r = true).
  { intros r. rewrite !is_fresh_spec. intros (p & Hp & Hle).
    exists p. split; [done | lia]. }
  split.
  - intros r. rewrite !filter_In. intros [Hr Hf]. split; [done | by apply Himp].
  - induction E as [|r E IH]; cbn [List.filter]; [done|].
    destruct (is_fresh now d1 r) eqn:F1.
    + rewrite (Himp r F1). by apply sublist_skip.
    + destruct (is_fresh now d2 r); [by apply sublist_cons | done].
Qed.

Lemma freshness_monotone_witness :
  In fresh_result (filter_by_freshness sample_now [fresh_result; undated_result] "week").
Proof.
  destruct (freshness_monotone sample_now [fresh_result; undated_result]
              "hour" "week" 3600000000%Z 604800000000%Z) as [Hin _].
  - by left.
  - right; right; by left.
  - lia.
  - apply Hin. by vm_compute; left.
Defined.

End Freshness.

(** ** The freshness filter and the offset of aware dates *)

Module FreshnessOffset.
Import Py SearchAggregator SearchAggregatorSpec ElapsedSpec.
Import Freshness.

(** The age that the code computes is the time passed plus the offset of
    the host minus the offset of the date: the two agree for naive dates
    and for aware dates in the zone of the host. *)
Lemma age_is_elapsed_plus_error host_offset now p :
  age_us now p = (elapsed_us host_offset now p + offset_error host_offset p)%Z.
Proof.
  unfold age_us, replace_tzinfo_none, elapsed_us, instant_us, offset_error.
  cbn [wall_us tzinfo]. destruct (tzinfo p); lia.
Qed.

(** On the dates of [search_reddit] and [search_hackernews], which are
    naive, and on aware dates in the zone of the host, the filter keeps
    exactly the results whose publication lies at most the horizon
    back. *)
Lemma elapsed_policy_without_error host_offset now results freshness delta :
  In (freshness, delta) horizons →
  (∀ r p, In r results → published_at r = Some p →
          offset_error host_offset p = 0%Z) →
  elapsed_policy host_offset now results freshness delta.
Proof.
  intros Hh Herr r. rewrite (filter_by_freshness_horizon _ _ _ _ Hh).
  rewrite filter_In. split.
  - intros [Hr Hf]. split; [done|].
    unfold is_fresh in Hf. destruct (published_at r) as [p|] eqn:Hp; [|done].
    exists p. split; [done|]. apply Z.leb_le in Hf.
    rewrite (age_is_elapsed_plus_error host_offset), (Herr r p Hr Hp) in Hf. lia.
  - intros [Hr (p & Hp & He)]. split; [done|].
    unfold is_fresh. rewrite Hp. apply Z.leb_le.
    rewrite (age_is_elapsed_plus_error host_offset), (Herr r p Hr Hp). lia.
Qed.

(** C6. The freshness policy fails on aware dates.  On a host at UTC+3 a
    result of arXiv published half an hour ago is dropped by the horizon
    "hour": the code compares the local clock with the UTC reading of the
    date, three and a half hours apart.  On a host at UTC-3 a result
    published three and a half hours ago is kept by the horizon "hour".
    In both cases the filter does not keep exactly the results whose
    [now - publishedAt] is at most the duration of the horizon. *)
Theorem freshness_ignores_offset :
  (elapsed_us utc_plus_3 sample_now recent_date = half_hour
   ∧ filter_by_freshness sample_now [arxiv_result recent_date] "hour" = []
   ∧ ¬ elapsed_policy utc_plus_3 sample_now [arxiv_result recent_date]
         "hour" 3600000000%Z)
  ∧ (elapsed_us utc_minus_3 sample_now old_date = (hours 3 + half_hour)%Z
     ∧ filter_by_freshness sample_now [arxiv_result old_date] "hour"
       = [arxiv_result old_date]
     ∧ ¬ elapsed_policy utc_minus_3 sample_now [arxiv_result old_date]
           "hour" 3600000000%Z).
Proof.
  split; (split; [by vm_compute|]; split; [by vm_compute|]); intros H.
  - destruct (proj2 (H (arxiv_result recent_date))) as [].
    split; [by left|]. exists recent_date. split; [done | by vm_compute].
  - destruct (proj1 (H (arxiv_result old_date))) as [_ (p & [= <-] & Hle)];
      [by left|].
    by vm_compute in Hle.
Qed.

End FreshnessOffset.

(** ** The deduplicator *)

Module Dedup.
Import Py SearchAggregator SearchAggregatorSpec.

(** Running the loop on its own output, from seen sets that are not
    larger, keeps everything. *)
Lemma dedup_loop_stable (results : list SearchResult) :
  ∀ (urls titles urls' titles' : gset string),
    urls' ⊆ urls → titles' ⊆ titles →
    dedup_loop urls' titles' (dedup_loop urls titles results)
    = dedup_loop urls titles results.
Proof.
  induction results as [|r rest IH]; intros urls titles urls' titles' Hu Ht;
    cbn [dedup_loop]; [done|].
  destruct (decide (url r ∈ urls)) as [Hin|Hnin]; [by apply IH|].
  destruct (decide (normalized_title r ∈ titles)) as [Hin'|Hnin']; [by apply IH|].
  cbn [dedup_loop].
  rewrite decide_False by set_solver.
  rewrite decide_False by set_solver.
  f_equal. apply IH; by apply union_mono_l.
Qed.

(** C8. Dedup idempotence: removing duplicates from the output of
    [remove_duplicates] changes nothing. *)
Theorem dedup_idempotent (X : list SearchResult) :
  remove_duplicates (remove_duplicates X) = remove_duplicates X.
Proof. unfold remove_duplicates. by apply dedup_loop_stable. Qed.

End Dedup.

(** ** The ranker *)

Module Ranker.
Import Py PyFacts SearchAggregator SearchAggregatorSpec.

Lemma insert_by_score_perm x l : insert_by_score x l ≡ₚ x :: l.
Proof.
  induction l as [|y l IH]; cbn [insert_by_score]; [done|].
  destruct (Qle_bool (score y) (score x)); [done|].
  rewrite IH. apply Permutation_swap.
Qed.

Lemma sorted_by_score_perm l : sorted_by_score l ≡ₚ l.
Proof.
  induction l as [|x l IH]; [done|].
  cbn [sorted_by_score foldr]. fold (sorted_by_score l).
  by rewrite insert_by_score_perm, IH.
Qed.

Lemma score_ge_trans a b c : score_ge a b → score_ge b c → score_ge a c.
Proof. unfold score_ge. intros H1 H2. by apply Qle_trans with (score b). Qed.

Lemma insert_by_score_sorted x l :
  StronglySorted score_ge l → StronglySorted score_ge (insert_by_score x l).
Proof.
  induction l as [|y l IH]; cbn [insert_by_score]; intros Hs.
  - by repeat constructor.
  - apply StronglySorted_inv in Hs as [Hl Hy].
    destruct (Qle_bool (score y) (score x)) eqn:E.
    + apply Qle_bool_iff in E.
      constructor; [by constructor|].
      constructor; [exact E|].
      eapply Forall_impl; [exact Hy|].
      intros z Hz. by apply score_ge_trans with y.
    + constructor; [by apply IH|].
      rewrite insert_by_score_perm. constructor; [|exact Hy].
      unfold score_ge. apply Qlt_le_weak, Qnot_le_lt.
      intros Hle. apply Qle_bool_iff in Hle. congruence.
Qed.

Lemma sorted_by_score_sorted l : StronglySorted score_ge (sorted_by_score l).
Proof.
  induction l as [|x l IH]; [constructor|].
  cbn [sorted_by_score foldr]. by apply insert_by_score_sorted.
Qed.

(** Inserting a result does not move it past a result of equal score. *)
Lemma insert_by_score_with_score s x l :
  with_score s (insert_by_score x l) = with_score s (x :: l).
Proof.
  unfold with_score.
  induction l as [|y l IH]; cbn [insert_by_score]; [done|].
  destruct (Qle_bool (score y) (score x)) eqn:E; [done|].
  cbn [List.filter] in *. rewrite IH.
  destruct (Qeq_bool (score x) s) eqn:Ex, (Qeq_bool (score y) s) eqn:Ey; try done.
  apply Qeq_bool_iff in Ex, Ey.
  assert (Qle_bool (score y) (score x) = true); [|congruence].
  apply Qle_bool_iff. rewrite Ex, Ey. apply Qle_refl.
Qed.

Lemma sorted_by_score_with_score s l :
  with_score s (sorted_by_score l) = with_score s l.
Proof.
  induction l as [|x l IH]; [done|].
  cbn [sorted_by_score foldr]. fold (sorted_by_score l).
  rewrite insert_by_score_with_score. unfold with_score in *.
  cbn [List.filter]. by rewrite IH.
Qed.

(** C4, as amended.  The output of the ranker holds the re-scored input
    results, in descending order of score, and results of equal score
    stand in the order in which they came in: there is no tie-break on
    the publication date or on the url. *)
Theorem rank_results_order (now : Z) (results : list SearchResult) :
  rank_results now results ≡ₚ map (rescore now) results
  ∧ StronglySorted score_ge (rank_results now results)
  ∧ ∀ s, with_score s (rank_results now results)
         = with_score s (map (rescore now) results).
Proof.
  unfold rank_results. split; [apply sorted_by_score_perm|].
  split; [apply sorted_by_score_sorted|].
  intros s. apply sorted_by_score_with_score.
Qed.

(** C4, as stated, fails: of two results of equal score the older one
    stays in front of the more recent one when it came in first, and the
    same two results given in the other order come out in the other
    order. *)
Lemma ties_keep_input_order :
  tie_break_sorted (rank_results sample_now [older; newer]) = false
  ∧ [older; newer] ≡ₚ [newer; older]
  ∧ rank_results sample_now [older; newer] ≠ rank_results sample_now [newer; older].
Proof.
  split; [by vm_compute|]. split; [apply Permutation_swap|].
  vm_compute. discriminate.
Qed.

End Ranker.

(** ** The fan-in of the adapters *)

Module FanIn.
Import Py SearchAggregator SearchAggregatorSpec.

(** The fan-in loop, from any list of results already merged. *)
Lemma merge_fold outs acc :
  fold_left extend_with outs acc = (acc ++ concat (map evidence_of outs))%list.
Proof.
  revert acc. induction outs as [|o outs IH]; intros acc; cbn [fold_left map concat].
  - by rewrite app_nil_r.
  - rewrite IH. destruct o; cbn [extend_with evidence_of]; [|done].
    by rewrite <- app_assoc.
Qed.

Lemma merge_spec outs : merge outs = concat (map evidence_of outs).
Proof. unfold merge. by rewrite merge_fold. Qed.

(** C5. Adapter failure isolation.  Whatever the adapters did, [search]
    returns a list: the filtered, deduplicated, ranked and truncated
    results of the adapters that returned, an adapter that raised (a
    time-out included) contributing no result.  In particular, when one
    adapter returned and the other one raised, the result is the
    filtered, deduplicated, ranked and truncated list of the one that
    returned. *)
Theorem adapter_failure_isolation (net : adapters) (now_filter now_rank : Z)
    (sources : list string) (freshness : string) (top : Z) :
  search net now_filter now_rank sources freshness top
  = pipeline now_filter now_rank freshness top
      (concat (map evidence_of (gather net sources)))
  ∧ ∀ a exc,
      gather net sources = [Returned a; Raised exc]
      ∨ gather net sources = [Raised exc; Returned a] →
      search net now_filter now_rank sources freshness top
      = pipeline now_filter now_rank freshness top a.
Proof.
  assert (Hs : search net now_filter now_rank sources freshness top
               = pipeline now_filter now_rank freshness top
                   (concat (map evidence_of (gather net sources)))).
  { unfold search, pipeline. by rewrite merge_spec. }
  split; [exact Hs|].
  intros a exc [Hg | Hg]; rewrite Hs, Hg; cbn [map concat evidence_of];
    by rewrite ?app_nil_r.
Qed.

(** Reddit returns two results and HackerNews times out: the fresh
    result of Reddit is returned. *)
Lemma adapter_failure_isolation_witness :
  search one_failing sample_now sample_now ["reddit"; "hackernews"] "week" 10
  = pipeline sample_now sample_now "week" 10 [fresh_result; undated_result]
  ∧ pipeline sample_now sample_now "week" 10 [fresh_result; undated_result]
    = [rescore sample_now fresh_result].
Proof.
  destruct (adapter_failure_isolation one_failing sample_now sample_now
              ["reddit"; "hackernews"] "week" 10) as [_ H].
  split; [|by vm_compute].
  apply (H [fresh_result; undated_result] "TimeoutError").
  left. by vm_compute.
Defined.

End FanIn.

(** ** More facts about the string primitives *)

Module MoreStrings.
Import Py PyFacts MoreSpec.

Lemma lower_char_idem c : lower_char (lower_char c) = lower_char c.
Proof. destruct c as [[] [] [] [] [] [] [] []]; reflexivity. Qed.

Lemma isspace_lower_char c : isspace (lower_char c) = isspace c.
Proof. destruct c as [[] [] [] [] [] [] [] []]; reflexivity. Qed.

Lemma lower_idem s : lower (lower s) = lower s.
Proof.
  induction s as [|c s IH]; cbn [lower]; [done|].
  by rewrite lower_char_idem, IH.
Qed.

Lemma string_forall_app P a b :
  string_forall P (a +:+ b) = string_forall P a && string_forall P b.
Proof.
  induction a as [|c a IH]; [done|].
  rewrite append_cons. cbn [string_forall]. by rewrite IH, andb_assoc.
Qed.

Lemma lower_is_lowered s : string_forall is_lowered (lower s) = true.
Proof.
  induction s as [|c s IH]; cbn [lower string_forall]; [done|].
  rewrite IH, andb_true_r. apply bool_decide_eq_true, lower_char_idem.
Qed.

Lemma is_lowered_fixed s : string_forall is_lowered s = true → lower s = s.
Proof.
  induction s as [|c s IH]; cbn [lower string_forall]; [done|].
  intros [Hc Hs]%andb_true_iff. apply bool_decide_eq_true in Hc.
  by rewrite Hc, IH.
Qed.

Lemma isspace_lower s :
  string_forall isspace (lower s) = string_forall isspace s.
Proof.
  induction s as [|c s IH]; cbn [lower string_forall]; [done|].
  by rewrite isspace_lower_char, IH.
Qed.

(** The tokens of [split] are not empty, and their characters are
    characters of the string that are not spaces. *)
Lemma split_go_tokens (P : ascii → bool) s :
  ∀ cur,
    string_forall (fun c => isspace c || P c) s = true →
    string_forall P cur = true →
    ∀ t, In t (split_go s cur) → t ≠ "" ∧ string_forall P t = true.
Proof.
  induction s as [|c s IH]; intros cur Hs Hcur t; cbn [split_go].
  - case_decide; [intros [] | intros [<- | []]; done].
  - cbn [string_forall] in Hs. apply andb_true_iff in Hs as [Hc Hs].
    destruct (isspace c) eqn:Esp.
    + case_decide.
      * by apply IH.
      * intros [<- | Hin]; [done | by apply (IH "")].
    + apply IH; [done|]. rewrite string_forall_app, Hcur.
      cbn [string_forall]. cbn [orb] in Hc. by rewrite Hc.
Qed.

Lemma split_tokens (P : ascii → bool) s t :
  string_forall (fun c => isspace c || P c) s = true →
  In t (split s) → t ≠ "" ∧ string_forall P t = true.
Proof. intros Hs. by apply split_go_tokens. Qed.

Lemma space_or_not s : string_forall (fun c => isspace c || not_space c) s = true.
Proof.
  induction s as [|c s IH]; cbn [string_forall]; [done|].
  rewrite IH, andb_true_r. unfold not_space. by destruct (isspace c).
Qed.

Lemma forall_weaken (P Q : ascii → bool) s :
  (∀ c, P c = true → Q c = true) →
  string_forall P s = true → string_forall Q s = true.
Proof.
  intros HPQ. induction s as [|c s IH]; cbn [string_forall]; [done|].
  intros [Hc Hs]%andb_true_iff. by rewrite (HPQ c Hc), IH.
Qed.

(** A string of spaces has no token. *)
Lemma split_blank s : string_forall isspace s = true → split s = [].
Proof.
  unfold split. induction s as [|c s IH]; cbn [split_go string_forall]; [done|].
  intros [Hc Hs]%andb_true_iff. rewrite Hc. case_decide; [by apply IH | done].
Qed.

End MoreStrings.

(** ** The verdict engine: further properties *)

Module VerdictMore.
Import Py PyFacts FactChecker FactCheckerSpec MoreSpec MoreStrings.
Import VerdictEngine.

(** X1. Properties of the keywords of a claim: none is empty, none holds a
    space, all are lower-case.  So the test [kw in text_lower] never
    succeeds through an empty keyword. *)
Theorem keywords_wellformed (claim kw : string) :
  kw ∈ claim_keywords claim →
  kw ≠ "" ∧ string_forall not_space kw = true ∧ lower kw = kw.
Proof.
  unfold claim_keywords. rewrite elem_of_list_to_set, list_elem_of_In.
  intros Hin.
  destruct (split_tokens not_space _ _ (space_or_not _) Hin) as [Hne Hsp].
  destruct (split_tokens is_lowered (lower claim) kw) as [_ Hlow]; [|done|].
  { eapply forall_weaken; [|apply lower_is_lowered].
    intros c ->. apply orb_true_r. }
  by apply is_lowered_fixed in Hlow.
Qed.

Lemma keywords_wellformed_witness :
  "nvidia" ≠ "" ∧ string_forall not_space "nvidia" = true ∧ lower "nvidia" = "nvidia".
Proof. apply (keywords_wellformed "NVIDIA  bought Groq"). by vm_compute. Defined.

Lemma analyze_no_counted texts claim :
  counted_items texts claim = [] →
  analyze_sentiment texts claim = ("unverified", 0%Q).
Proof.
  intros H. unfold analyze_sentiment, decide_verdict.
  rewrite count_signals_spec. cbn [total_mentions]. by rewrite H.
Qed.

(** X2. A claim without a token (empty, or made of spaces only) is
    "unverified" with confidence 0 whatever the evidence says. *)
Theorem blank_claim_unverified (texts : list string) (claim : string) :
  string_forall isspace claim = true →
  analyze_sentiment texts claim = ("unverified", 0%Q).
Proof.
  intros Hb. apply analyze_no_counted, counted_items_nil.
  intros t _. unfold counted, claim_tokens.
  rewrite split_blank; [done|]. by rewrite isspace_lower.
Qed.

Lemma blank_claim_unverified_witness :
  analyze_sentiment ["It is confirmed and official"; "fake"] "   "
  = ("unverified", 0%Q).
Proof. apply blank_claim_unverified. by vm_compute. Defined.

Lemma count_where_perm p (l l' : list string) :
  l ≡ₚ l' → count_where p l = count_where p l'.
Proof.
  induction 1 as [|x l l' _ IH|x y l|l l' l'' _ IH1 _ IH2].
  - done.
  - rewrite !count_where_cons. lia.
  - rewrite !count_where_cons. lia.
  - congruence.
Qed.

(** X3. The verdict does not depend on the order of the evidence texts. *)
Theorem verdict_order_independent (texts texts' : list string) (claim : string) :
  texts ≡ₚ texts' →
  analyze_sentiment texts claim = analyze_sentiment texts' claim.
Proof.
  intros Hp. unfold analyze_sentiment. f_equal.
  rewrite !count_signals_spec. unfold counted_items.
  change (Z.of_nat (length (List.filter (counted claim) texts)))
    with (count_where (counted claim) texts).
  change (Z.of_nat (length (List.filter (counted claim) texts')))
    with (count_where (counted claim) texts').
  by rewrite !(count_where_perm _ _ _ Hp).
Qed.

Lemma verdict_order_independent_witness :
  analyze_sentiment ["merger confirmed"; "merger fake"; "merger"] "merger"
  = analyze_sentiment ["merger"; "merger confirmed"; "merger fake"] "merger".
Proof.
  apply verdict_order_independent.
  change ("merger confirmed" :: ["merger fake"; "merger"])
    with (["merger confirmed"; "merger fake"] ++ ["merger"])%list.
  apply (Permutation_app_comm ["merger confirmed"; "merger fake"] ["merger"]).
Defined.

Lemma count_where_map p (f : string → string) l :
  count_where p (map f l) = count_where (fun t => p (f t)) l.
Proof.
  induction l as [|t l IH]; [done|].
  cbn [map]. rewrite !count_where_cons. by rewrite IH.
Qed.

(** X4. The verdict does not depend on the case of the letters, neither of
    the claim nor of the evidence. *)
Theorem verdict_case_insensitive (texts : list string) (claim : string) :
  analyze_sentiment (map lower texts) (lower claim)
  = analyze_sentiment texts claim.
Proof.
  unfold analyze_sentiment. f_equal.
  assert (Hc : ∀ t, counted (lower claim) (lower t) = counted claim t).
  { intros t. unfold counted, claim_tokens. by rewrite !lower_idem. }
  rewrite !count_signals_spec. unfold counted_items.
  change (Z.of_nat (length (List.filter (counted (lower claim)) (map lower texts))))
    with (count_where (counted (lower claim)) (map lower texts)).
  change (Z.of_nat (length (List.filter (counted claim) texts)))
    with (count_where (counted claim) texts).
  rewrite !count_where_map. cbv beta.
  assert (E : ∀ ws, count_where
              (fun t => counted (lower claim) (lower t)
                        && any_in ws (lower (lower t))) texts
            = count_where (fun t => counted claim t && any_in ws (lower t)) texts).
  { intros ws. apply count_where_ext. intros t. by rewrite lower_idem, Hc. }
  assert (E0 : count_where (fun t => counted (lower claim) (lower t)) texts
               = count_where (counted claim) texts).
  { apply count_where_ext. intros t. apply Hc. }
  by rewrite !E, E0.
Qed.

Lemma filter_filter_imp (p c : string → bool) l :
  (∀ t, p t = true → c t = true) →
  List.filter p (List.filter c l) = List.filter p l.
Proof.
  intros Himp. induction l as [|t l IH]; [done|]. cbn [List.filter].
  destruct (c t) eqn:Ec; cbn [List.filter].
  - by rewrite IH.
  - destruct (p t) eqn:Ep; [|done]. rewrite (Himp t Ep) in Ec. discriminate.
Qed.

(** X5. Texts that contain no token of the claim have no influence: the
    verdict is that of the counted texts alone. *)
Theorem uncounted_texts_ignored (texts : list string) (claim : string) :
  analyze_sentiment (counted_items texts claim) claim
  = analyze_sentiment texts claim.
Proof.
  unfold analyze_sentiment. f_equal.
  rewrite !count_signals_spec. unfold count_where, counted_items.
  rewrite !filter_filter_imp; [done|..]; intros t; try done;
    by intros [? _]%andb_true_iff.
Qed.

Lemma count_where_and_le (c q : string → bool) l :
  (0 <= count_where (fun t => c t && q t) l <= count_where c l)%Z.
Proof.
  induction l as [|t l IH]; [done|].
  rewrite !count_where_cons. destruct (c t), (q t); cbn [andb]; lia.
Qed.

(** X6. The signals are bounded by the number of counted items: the confirm
    signal is twice a number of items, the deny signal twice a number of
    items plus a number of items.  So a confirm signal is at most twice,
    a deny signal at most three times the number of counted items. *)
Theorem signals_bounded (texts : list string) (claim : string) :
  let st := count_signals texts claim in
  let n := Z.of_nat (length (counted_items texts claim)) in
  (∃ k, 0 <= k <= n ∧ confirm_signals st = 2 * k)%Z
  ∧ (∃ a b, 0 <= a <= n ∧ 0 <= b <= n ∧ deny_signals st = 2 * a + b)%Z
  ∧ total_mentions st = n.
Proof.
  intros st n. subst st n. rewrite count_signals_spec.
  cbn [confirm_signals deny_signals total_mentions].
  change (Z.of_nat (length (counted_items texts claim)))
    with (count_where (counted claim) texts).
  split; [|split; [|done]].
  - eexists. split; [|reflexivity]. apply count_where_and_le.
  - eexists _, _. split; [|split; [|reflexivity]]; apply count_where_and_le.
Qed.

Lemma count_where_all (c q : string → bool) l :
  (∀ t, In t l → c t = true → q t = true) →
  count_where (fun t => c t && q t) l = count_where c l.
Proof.
  induction l as [|t l IH]; intros H; [done|].
  rewrite !count_where_cons, IH by (intros u Hu; apply H; by right).
  destruct (c t) eqn:Ec; [|done]. by rewrite (H t (or_introl eq_refl) Ec).
Qed.

Lemma count_where_none (c q : string → bool) l :
  (∀ t, In t l → c t = true → q t = false) →
  count_where (fun t => c t && q t) l = 0%Z.
Proof.
  induction l as [|t l IH]; intros H; [done|].
  rewrite !count_where_cons, IH by (intros u Hu; apply H; by right).
  destruct (c t) eqn:Ec; [|done]. by rewrite (H t (or_introl eq_refl) Ec).
Qed.

Lemma min_double_one n : (0 < n)%Z → min (inject_Z (2 * n) / inject_Z n) 1 = 1%Q.
Proof.
  intros Hn. unfold min.
  destruct (Qle_bool (inject_Z (2 * n) / inject_Z n) 1) eqn:E; [|done].
  apply Qle_bool_iff in E.
  assert (Hq : (inject_Z (2 * n) / inject_Z n == 2)%Q).
  { rewrite inject_Z_mult. field. unfold Qeq. cbn. lia. }
  rewrite Hq in E. by apply Qle_bool_iff in E.
Qed.

(** X7. When every counted text carries a confirming cue and none carries a
    denying or a suspicious cue, the verdict is "true" with full
    confidence: the ratio, 2, is capped at 1. *)
Theorem all_confirming_is_true (texts : list string) (claim : string) :
  counted_items texts claim ≠ [] →
  (∀ t, In t texts → counted claim t = true →
        any_in confirm_words (lower t) = true
        ∧ any_in deny_words (lower t) = false
        ∧ any_in SUSPICIOUS_WORDS (lower t) = false) →
  analyze_sentiment texts claim = ("true", 1%Q).
Proof.
  intros Hne Hall. unfold analyze_sentiment, decide_verdict.
  rewrite count_signals_spec. cbn [confirm_signals deny_signals total_mentions].
  rewrite (count_where_all (counted claim)
             (fun t => any_in confirm_words (lower t)))
    by (intros t Ht Hc; by apply Hall).
  rewrite (count_where_none (counted claim)
             (fun t => any_in deny_words (lower t)))
    by (intros t Ht Hc; by apply Hall).
  rewrite (count_where_none (counted claim)
             (fun t => any_in SUSPICIOUS_WORDS (lower t)))
    by (intros t Ht Hc; by apply Hall).
  change (Z.of_nat (length (counted_items texts claim)))
    with (count_where (counted claim) texts).
  assert (Hpos : (0 < count_where (counted claim) texts)%Z).
  { unfold count_where. fold (counted_items texts claim).
    destruct (counted_items texts claim); [done | cbn [length]; lia]. }
  destruct (Z.eqb_spec (count_where (counted claim) texts) 0); [lia|].
  destruct (Z.ltb_spec ((2 * 0 + 0) * 2) (2 * count_where (counted claim) texts));
    [|lia].
  by rewrite min_double_one.
Qed.

Lemma all_confirming_is_true_witness :
  analyze_sentiment
    ["Merger confirmed"; "Official: merger announced"; "Merger is official"; "weather"]
    "merger" = ("true", 1%Q).
Proof.
  apply all_confirming_is_true; [by vm_compute|].
  intros t [<- | [<- | [<- | [<- | []]]]] Hc; by vm_compute in Hc |- *.
Defined.

End VerdictMore.

(** ** [check]: further properties *)

Module CheckMore.
Import Py PyFacts FactChecker FactCheckerSpec FactCheckerSearch MoreSpec.

Lemma decide_verdict_known st : In (decide_verdict st).1 verdicts.
Proof.
  unfold decide_verdict, verdicts.
  repeat match goal with |- context [if ?b then _ else _] => destruct b end;
    cbn; tauto.
Qed.

(** The verdict of a result is always one of "true", "false",
    "partially_true" and "unverified". *)
Theorem check_verdict_known (srcs : list source) (now : Z) (claim : string)
    (min_confidence : Q) :
  In (verdict (check srcs now claim min_confidence)) verdicts.
Proof.
  unfold check.
  pose proof (decide_verdict_known (count_signals (map raw_text srcs) claim)) as Hk.
  fold (analyze_sentiment (map raw_text srcs) claim) in Hk.
  destruct (analyze_sentiment (map raw_text srcs) claim) as [v c].
  cbn [verdict]. cbn [fst] in Hk.
  destruct (lt c min_confidence && bool_decide (v ∈ ["true"; "false"]));
    [cbn; tauto | exact Hk].
Qed.

(** X8. Without a downgrade nothing is added: when the computed confidence
    reaches [min_confidence], or the computed verdict is neither "true"
    nor "false", the result carries the computed verdict and exactly the
    explanation of that verdict. *)
Theorem no_downgrade (srcs : list source) (now : Z) (claim : string)
    (min_confidence : Q) (v : string) (c : Q) :
  analyze_sentiment (map raw_text srcs) claim = (v, c) →
  (min_confidence <= c)%Q ∨ (v ≠ "true" ∧ v ≠ "false") →
  verdict (check srcs now claim min_confidence) = v
  ∧ confidence (check srcs now claim min_confidence) = c
  ∧ explanation (check srcs now claim min_confidence)
    = generate_explanation v c srcs (find_contradictions srcs claim).
Proof.
  intros Ha Hno.
  assert (Hlow : lt c min_confidence && bool_decide (v ∈ ["true"; "false"]) = false).
  { apply andb_false_iff. destruct Hno as [Hle | [Ht Hf]].
    - left. unfold lt. apply negb_false_iff. by apply Qle_bool_iff.
    - right. apply bool_decide_eq_false.
      rewrite !elem_of_cons, elem_of_nil. tauto. }
  unfold check. by rewrite Ha, Hlow.
Qed.

Lemma no_downgrade_witness :
  verdict (check weak_sources 0 "merger" (1 # 2)) = "true"
  ∧ confidence (check weak_sources 0 "merger" (1 # 2)) = (6 # 10)%Q.
Proof.
  destruct (no_downgrade weak_sources 0 "merger" (1 # 2) "true" (6 # 10))
    as (Hv & Hc & _); [by vm_compute | left; by vm_compute |].
  by split.
Defined.

(** X9. After a downgrade the label and the text disagree: the verdict is
    "unverified" while the explanation still opens with the template of
    the computed "true" or "false" verdict (all of these open with
    "Факт"), which the template of an "unverified" verdict never does. *)
Theorem downgrade_keeps_template (srcs : list source) (now : Z) (claim : string)
    (min_confidence : Q) (v : string) (c : Q) :
  analyze_sentiment (map raw_text srcs) claim = (v, c) →
  v = "true" ∨ v = "false" →
  (c < min_confidence)%Q →
  verdict (check srcs now claim min_confidence) = "unverified"
  ∧ startswith "Факт" (explanation (check srcs now claim min_confidence)) = true
  ∧ ∀ c' srcs' ctr,
      startswith "Факт" (generate_explanation "unverified" c' srcs' ctr) = false.
Proof.
  intros Ha Hv Hlt.
  assert (Hlow : lt c min_confidence && bool_decide (v ∈ ["true"; "false"]) = true).
  { apply andb_true_iff. split; [by apply lt_spec|].
    apply bool_decide_eq_true. destruct Hv as [-> | ->]; set_solver. }
  unfold check. rewrite Ha, Hlow. cbn [verdict explanation].
  split; [done|]. split; [|intros c' srcs' ctr; by vm_compute].
  unfold generate_explanation.
  destruct Hv as [-> | ->]; destruct (lt (8 # 10) c); by vm_compute.
Qed.

Lemma downgrade_keeps_template_witness :
  verdict (check weak_sources 0 "merger" (9 # 10)) = "unverified"
  ∧ startswith "Факт" (explanation (check weak_sources 0 "merger" (9 # 10))) = true.
Proof.
  destruct (downgrade_keeps_template weak_sources 0 "merger" (9 # 10) "true" (6 # 10))
    as (Hv & He & _); [by vm_compute | by left | by vm_compute |].
  by split.
Defined.

(** A search that fails counts as a search that found nothing: the
    sources are what Reddit found followed by what HackerNews found. *)
Lemma search_for_claim_found net :
  search_for_claim net
  = (match _search_reddit net with Found l => l | Failed _ => [] end
     ++ match _search_hackernews net with Found l => l | Failed _ => [] end)%list.
Proof.
  unfold search_for_claim.
  destruct (_search_reddit net), (_search_hackernews net);
    cbn [try_extend app]; by rewrite ?app_nil_r.
Qed.

(** X10. No evidence is not an error: when each search failed or found
    nothing, [check] returns "unverified" with confidence 0, no source and
    no contradiction, whatever the claim and the threshold, and says so
    with "0%". *)
Theorem no_evidence_result (net : searches) (now : Z) (claim : string)
    (min_confidence : Q) :
  (∀ l, _search_reddit net = Found l → l = []) →
  (∀ l, _search_hackernews net = Found l → l = []) →
  let r := check_claim net now claim min_confidence in
  verdict r = "unverified"
  ∧ confidence r = 0%Q
  ∧ sources r = []
  ∧ contradictions r = []
  ∧ explanation r
    = "Недостаточно данных для проверки факта (уверенность: 0%). Не найдено достаточно упоминаний в доступных источниках.".
Proof.
  intros Hr Hh r.
  assert (Hs : search_for_claim net = []).
  { rewrite search_for_claim_found.
    destruct (_search_reddit net) as [l1|]; [rewrite (Hr l1 eq_refl)|];
      (destruct (_search_hackernews net) as [l2|]; [by rewrite (Hh l2 eq_refl)|done]). }
  subst r. unfold check_claim. rewrite Hs. unfold check.
  cbn [map]. rewrite (VerdictMore.analyze_no_counted [] claim eq_refl).
  cbv beta iota zeta.
  destruct (lt 0%Q min_confidence); repeat split; by vm_compute.
Qed.

Lemma no_evidence_result_witness :
  verdict (check_claim {| _search_reddit := Failed "ClientError";
                          _search_hackernews := Found [] |}
                       0 "NVIDIA bought Groq" (7 # 10)) = "unverified".
Proof.
  destruct (no_evidence_result
              {| _search_reddit := Failed "ClientError"; _search_hackernews := Found [] |}
              0 "NVIDIA bought Groq" (7 # 10)) as (Hv & _).
  - intros l [=].
  - by intros l [= <-].
  - exact Hv.
Defined.

End CheckMore.

(** ** The contradiction detector: further properties *)

Module DetectorMore.
Import Py PyFacts FactChecker FactCheckerSpec MoreSpec.
Import Detector.

(** X11. A contradiction is reported exactly when the sources hold both a
    confirming and a denying one, and then as a single record. *)
Theorem contradiction_emitted_iff (srcs : list source) (claim : string) :
  (find_contradictions srcs claim ≠ []
   ↔ (∃ s, In s srcs ∧ is_confirming s = true)
     ∧ (∃ s, In s srcs ∧ is_denying s = true))
  ∧ (length (find_contradictions srcs claim) <= 1)%nat.
Proof.
  unfold find_contradictions. rewrite group_sources_filter.
  destruct (List.filter is_confirming srcs) as [|x xs] eqn:Ec.
  { split; [|cbn; lia]. split; [done|].
    intros [(s & Hs & Hc) _].
    assert (In s (List.filter is_confirming srcs)) as Hin by (by apply filter_In).
    rewrite Ec in Hin. destruct Hin. }
  destruct (List.filter is_denying srcs) as [|y ys] eqn:Ed.
  { split; [|cbn; lia]. split; [done|].
    intros [_ (s & Hs & Hd)].
    assert (In s (List.filter is_denying srcs)) as Hin by (by apply filter_In).
    rewrite Ed in Hin. destruct Hin. }
  split; [|cbn; lia]. split; [|done]. intros _. split.
  - exists x. apply filter_In. rewrite Ec. by left.
  - exists y. apply filter_In. rewrite Ed. by left.
Qed.

Lemma filter_head {A} (p : A → bool) l x xs :
  List.filter p l = x :: xs →
  ∃ pre post, l = (pre ++ x :: post)%list ∧ Forall (fun y => p y = false) pre.
Proof.
  induction l as [|y l IH]; cbn [List.filter]; [done|].
  destruct (p y) eqn:E.
  - intros [= -> <-]. by exists [], l.
  - intros (pre & post & -> & Hpre)%IH. exists (y :: pre), post.
    split; [done | by constructor].
Qed.

(** X12. The samples of a contradiction record are the first confirming and
    the first denying source in the order of the input; both counts are
    positive and together they do not exceed the number of sources. *)
Theorem contradiction_samples (srcs : list source) (claim : string)
    (c : contradiction) :
  In c (find_contradictions srcs claim) →
  (∃ pre post, srcs = (pre ++ sample_confirm c :: post)%list
               ∧ Forall (fun s => is_confirming s = false) pre
               ∧ is_confirming (sample_confirm c) = true)
  ∧ (∃ pre post, srcs = (pre ++ sample_deny c :: post)%list
                 ∧ Forall (fun s => is_denying s = false) pre
                 ∧ is_denying (sample_deny c) = true)
  ∧ (1 <= confirm_count c)%nat ∧ (1 <= deny_count c)%nat
  ∧ (confirm_count c + deny_count c <= length srcs)%nat.
Proof.
  unfold find_contradictions. rewrite group_sources_filter.
  destruct (List.filter is_confirming srcs) as [|x xs] eqn:Ec; [intros []|].
  destruct (List.filter is_denying srcs) as [|y ys] eqn:Ed; [intros []|].
  intros [<- | []]. cbn [sample_confirm sample_deny confirm_count deny_count].
  assert (Hx : is_confirming x = true).
  { apply (proj1 (filter_In is_confirming x srcs)). rewrite Ec. by left. }
  assert (Hy : is_denying y = true).
  { apply (proj1 (filter_In is_denying y srcs)). rewrite Ed. by left. }
  split; [|split; [|split; [|split]]].
  - destruct (filter_head _ _ _ _ Ec) as (pre & post & ? & ?). by exists pre, post.
  - destruct (filter_head _ _ _ _ Ed) as (pre & post & ? & ?). by exists pre, post.
  - cbn [length]. lia.
  - cbn [length]. lia.
  - rewrite <- Ec, <- Ed. clear. induction srcs as [|s srcs IH]; [done|].
    cbn [List.filter length]. unfold is_denying at 1, is_confirming at 1.
    destruct (matches_confirm s), (matches_deny s); cbn [negb andb length]; lia.
Qed.

Lemma contradiction_samples_witness :
  ∃ c, In c (find_contradictions mixed_sources "merger")
       ∧ is_confirming (sample_confirm c) = true
       ∧ is_denying (sample_deny c) = true.
Proof.
  destruct (find_contradictions mixed_sources "merger") as [|c cs] eqn:E;
    [by vm_compute in E|].
  exists c. split; [by left|].
  assert (Hin : In c (find_contradictions mixed_sources "merger")).
  { rewrite E. by left. }
  destruct (contradiction_samples mixed_sources "merger" c Hin)
    as ((? & ? & _ & _ & Hc) & (? & ? & _ & _ & Hd) & _).
  by split.
Defined.

Lemma detector_cues text :
  (any_in detector_confirm_words text = true → any_in confirm_words text = true)
  ∧ (any_in detector_deny_words text = true → any_in deny_words text = true).
Proof.
  split; rewrite !any_in_spec; intros (w & Hw & Hs); exists w; (split; [|done]);
    cbn in Hw |- *; intuition.
Qed.

(** The cues of the detector are cues of the verdict engine: a text in
    which the detector finds a confirming (denying) cue also holds a
    confirming (denying) cue of [analyze_sentiment]; the converse fails
    for "yes", "indeed", "rumor" and "not true". *)
Theorem detector_cues_subsumed (text : string) :
  (any_in detector_confirm_words text = true → any_in confirm_words text = true)
  ∧ (any_in detector_deny_words text = true → any_in deny_words text = true).
Proof.
  split; rewrite !any_in_spec; intros (w & Hw & Hs); exists w; (split; [|done]);
    cbn in Hw |- *; intuition.
Qed.

Lemma detector_cues_subsumed_witness :
  any_in confirm_words "merger announced" = true.
Proof.
  destruct (detector_cues_subsumed "merger announced") as [H _].
  apply H. by vm_compute.
Defined.

End DetectorMore.

(** ** The freshness filter: further properties *)

Module FreshnessMore.
Import Py SearchAggregator SearchAggregatorSpec MoreSpec.
Import Freshness.

Lemma filter_filter_sub {A} (p q : A → bool) l :
  (∀ x, p x = true → q x = true) →
  List.filter q (List.filter p l) = List.filter p l
  ∧ List.filter p (List.filter q l) = List.filter p l.
Proof.
  intros Himp. induction l as [|x l [IH1 IH2]]; [done|]. cbn [List.filter].
  destruct (p x) eqn:Ep.
  - rewrite (Himp x Ep). cbn [List.filter]. by rewrite (Himp x Ep), Ep, IH1, IH2.
  - split; [done|]. destruct (q x); cbn [List.filter]; by rewrite ?Ep, IH2.
Qed.

Lemma unknown_lookup f :
  ¬ In f ["hour"; "day"; "week"; "month"] → freshness_map !! f = None.
Proof.
  cbn [In]. intros Hn. unfold freshness_map.
  rewrite !lookup_insert_ne by (intros <-; tauto).
  apply lookup_singleton_ne. intros <-. tauto.
Qed.

(** X14. A freshness that is not one of the four names is read as "week": no
    error is raised for it. *)
Theorem unknown_freshness_is_week (now : Z) (results : list SearchResult)
    (freshness : string) :
  ¬ In freshness ["hour"; "day"; "week"; "month"] →
  filter_by_freshness now results freshness
  = filter_by_freshness now results "week".
Proof.
  intros Hn. unfold filter_by_freshness. by rewrite (unknown_lookup _ Hn).
Qed.

Lemma unknown_freshness_is_week_witness :
  filter_by_freshness sample_now [fresh_result; undated_result] "24h"
  = filter_by_freshness sample_now [fresh_result; undated_result] "week".
Proof.
  apply unknown_freshness_is_week. cbn [In].
  intros [H | [H | [H | [H | []]]]]; discriminate H.
Defined.

(** X15. Filtering again changes nothing, and of two filters in a row the one
    with the shorter horizon decides, in either order. *)
Theorem freshness_compose (now : Z) (E : list SearchResult)
    (h1 h2 : string) (d1 d2 : Z) :
  In (h1, d1) horizons → In (h2, d2) horizons → (d1 <= d2)%Z →
  filter_by_freshness now (filter_by_freshness now E h1) h2
  = filter_by_freshness now E h1
  ∧ filter_by_freshness now (filter_by_freshness now E h2) h1
    = filter_by_freshness now E h1.
Proof.
  intros H1 H2 Hle.
  rewrite !(filter_by_freshness_horizon _ _ _ _ H1),
          !(filter_by_freshness_horizon _ _ _ _ H2).
  apply filter_filter_sub. intros r. rewrite !is_fresh_spec.
  intros (p & Hp & Hd). exists p. split; [done | lia].
Qed.

Lemma freshness_compose_witness :
  filter_by_freshness sample_now
    (filter_by_freshness sample_now [fresh_result; undated_result] "month") "hour"
  = filter_by_freshness sample_now [fresh_result; undated_result] "hour".
Proof.
  destruct (freshness_compose sample_now [fresh_result; undated_result]
              "hour" "month" 3600000000%Z 2592000000000%Z) as [_ H].
  - by left.
  - right; right; right; by left.
  - lia.
  - exact H.
Defined.

(** X16. A result dated in the future (its wall-clock reading is later than
    [now]) passes every horizon. *)
Theorem future_dated_kept (now : Z) (results : list SearchResult)
    (freshness : string) (delta : Z) (r : SearchResult) (p : datetime) :
  In (freshness, delta) horizons →
  In r results → published_at r = Some p → (now <= wall_us p)%Z →
  In r (filter_by_freshness now results freshness).
Proof.
  intros Hh Hr Hp Hfut.
  rewrite (filter_by_freshness_horizon _ _ _ _ Hh).
  apply filter_In. split; [done|]. apply is_fresh_spec. exists p.
  split; [done|].
  assert (0 <= delta)%Z; [|lia].
  unfold horizons in Hh. cbn [In] in Hh.
  destruct Hh as [E | [E | [E | [E | []]]]]; injection E as _ <-; lia.
Qed.

Lemma future_dated_kept_witness :
  In (mk_result "Tomorrow" "https://e.example/5" (Some (sample_now + 1)%Z) 0)
     (filter_by_freshness sample_now
        [mk_result "Tomorrow" "https://e.example/5" (Some (sample_now + 1)%Z) 0]
        "hour").
Proof.
  eapply (future_dated_kept sample_now _ "hour" 3600000000%Z);
    [by left | by left | reflexivity | by vm_compute].
Defined.

End FreshnessMore.

(** ** The deduplicator: further properties *)

Module DedupMore.
Import Py SearchAggregator SearchAggregatorSpec MoreSpec.

(** What the loop keeps was in the input and was not seen before. *)
Lemma dedup_loop_fresh l :
  ∀ (su st : gset string) r,
    In r (dedup_loop su st l) →
    In r l ∧ (url r ∉ su) ∧ (normalized_title r ∉ st).
Proof.
  induction l as [|x l IH]; intros su st r; cbn [dedup_loop]; [done|].
  destruct (decide (url x ∈ su)) as [?|Hu].
  { intros (? & ? & ?)%IH. split; [by right | done]. }
  destruct (decide (normalized_title x ∈ st)) as [?|Ht].
  { intros (? & ? & ?)%IH. split; [by right | done]. }
  intros [<- | (Hin & Hnu & Hnt)%IH].
  { split; [by left | done]. }
  split; [by right|]. split; [clear -Hnu | clear -Hnt]; set_solver.
Qed.

Lemma dedup_loop_nodup l :
  ∀ (su st : gset string),
    NoDup (urls (dedup_loop su st l)) ∧ NoDup (titles (dedup_loop su st l)).
Proof.
  unfold urls, titles.
  induction l as [|x l IH]; intros su st; cbn [dedup_loop].
  - split; constructor.
  - destruct (decide (url x ∈ su)); [apply IH|].
    destruct (decide (normalized_title x ∈ st)); [apply IH|].
    cbn [map].
    destruct (IH ({[url x]} ∪ su) ({[normalized_title x]} ∪ st)) as [Hu Ht].
    split; (constructor; [|done]); rewrite list_elem_of_In, in_map_iff;
      intros (r & Heq & (_ & Hnu & Hnt)%dedup_loop_fresh);
      [clear -Heq Hnu | clear -Heq Hnt]; set_solver.
Qed.

(** X17. In the output no url occurs twice and no normalized title occurs
    twice. *)
Theorem dedup_distinct (X : list SearchResult) :
  NoDup (urls (remove_duplicates X)) ∧ NoDup (titles (remove_duplicates X)).
Proof. apply dedup_loop_nodup. Qed.

Lemma dedup_loop_sublist l :
  ∀ (su st : gset string), dedup_loop su st l `sublist_of` l.
Proof.
  induction l as [|x l IH]; intros su st; cbn [dedup_loop]; [done|].
  destruct (decide (url x ∈ su)); [by apply sublist_cons|].
  destruct (decide (normalized_title x ∈ st)); [by apply sublist_cons|].
  by apply sublist_skip.
Qed.

(** X18. The output is the input with some results left out, in the same
    order, and the first result of the input is always kept, in front. *)
Theorem dedup_sublist_first_wins (X : list SearchResult) :
  remove_duplicates X `sublist_of` X
  ∧ hd_error (remove_duplicates X) = hd_error X.
Proof.
  split; [apply dedup_loop_sublist|].
  destruct X as [|r l]; [done|].
  unfold remove_duplicates. cbn [dedup_loop].
  rewrite decide_False by apply not_elem_of_empty.
  by rewrite decide_False by apply not_elem_of_empty.
Qed.

Lemma dedup_loop_covers l :
  ∀ (su st : gset string) r,
    In r l →
    url r ∈ su ∨ normalized_title r ∈ st
    ∨ ∃ k, In k (dedup_loop su st l)
           ∧ (url k = url r ∨ normalized_title k = normalized_title r).
Proof.
  induction l as [|x l IH]; intros su st r; [intros []|].
  cbn [dedup_loop]. intros [<- | Hin].
  - destruct (decide (url x ∈ su)); [by left|].
    destruct (decide (normalized_title x ∈ st)); [by right; left|].
    right; right. exists x. split; [by left | by left].
  - destruct (decide (url x ∈ su)); [by apply IH|].
    destruct (decide (normalized_title x ∈ st)); [by apply IH|].
    destruct (IH ({[url x]} ∪ su) ({[normalized_title x]} ∪ st) r Hin)
      as [Hu | [Ht | (k & Hk & Hsame)]].
    + apply elem_of_union in Hu as [->%elem_of_singleton | Hu]; [|by left].
      right; right. exists x. split; [by left | by left].
    + apply elem_of_union in Ht as [->%elem_of_singleton | Ht]; [|by right; left].
      right; right. exists x. split; [by left | by right].
    + right; right. exists k. split; [by right | done].
Qed.

(** X19. Nothing is lost without a representative: every result of the input
    has in the output a result with the same url or the same normalized
    title. *)
Theorem dedup_covers (X : list SearchResult) (r : SearchResult) :
  In r X →
  ∃ k, In k (remove_duplicates X)
       ∧ (url k = url r ∨ normalized_title k = normalized_title r).
Proof.
  intros Hin.
  destruct (dedup_loop_covers X ∅ ∅ r Hin) as [Hu | [Ht | Hk]]; [| |done].
  - by apply not_elem_of_empty in Hu.
  - by apply not_elem_of_empty in Ht.
Qed.

Lemma dedup_covers_witness :
  ∃ k, In k (remove_duplicates [older; set_score newer 9; newer])
       ∧ (url k = url newer ∨ normalized_title k = normalized_title newer).
Proof.
  apply (dedup_covers [older; set_score newer 9; newer] newer).
  right; right; by left.
Defined.

Lemma dedup_loop_id l :
  ∀ (su st : gset string),
    (∀ r, In r l → (url r ∉ su) ∧ (normalized_title r ∉ st)) →
    NoDup (urls l) → NoDup (titles l) →
    dedup_loop su st l = l.
Proof.
  unfold urls, titles.
  induction l as [|x l IH]; intros su st Hfresh Hu Ht; cbn [dedup_loop]; [done|].
  cbn [map] in Hu, Ht. apply NoDup_cons in Hu as [Hxu Hu], Ht as [Hxt Ht].
  destruct (Hfresh x (or_introl eq_refl)) as [Hnu Hnt].
  rewrite decide_False by done. rewrite decide_False by done.
  f_equal. apply IH; [|done..].
  intros r Hr. destruct (Hfresh r (or_intror Hr)) as [Hru Hrt].
  split; intros [Heq%elem_of_singleton | ?]%elem_of_union; try done.
  - apply Hxu. rewrite <- Heq, list_elem_of_In. by apply in_map.
  - apply Hxt. rewrite <- Heq, list_elem_of_In. by apply in_map.
Qed.

(** X20. The lists that [remove_duplicates] leaves unchanged are exactly those
    in which no url and no normalized title occurs twice. *)
Theorem dedup_fixpoint (X : list SearchResult) :
  remove_duplicates X = X ↔ NoDup (urls X) ∧ NoDup (titles X).
Proof.
  split.
  - intros <-. apply dedup_loop_nodup.
  - intros [Hu Ht]. apply dedup_loop_id; [|done..].
    intros r _. split; apply not_elem_of_empty.
Qed.

(** The loop over a concatenation: the second list is processed with what
    was kept of the first one as seen. *)
Lemma dedup_loop_app l1 l2 :
  ∀ (su st : gset string),
    dedup_loop su st (l1 ++ l2)
    = (dedup_loop su st l1
       ++ dedup_loop (list_to_set (urls (dedup_loop su st l1)) ∪ su)
                     (list_to_set (titles (dedup_loop su st l1)) ∪ st) l2)%list.
Proof.
  unfold urls, titles.
  induction l1 as [|x l1 IH]; intros su st.
  - cbn [app dedup_loop map list_to_set]. by rewrite !(left_id_L ∅ (∪)).
  - rewrite <- app_comm_cons. cbn [dedup_loop].
    destruct (decide (url x ∈ su)); [apply IH|].
    destruct (decide (normalized_title x ∈ st)); [apply IH|].
    rewrite IH. rewrite <- app_comm_cons. f_equal. f_equal.
    cbn [map list_to_set]. f_equal; set_solver.
Qed.

(** X21. A result that comes after the others is dropped when its url or its
    normalized title is that of a kept result, and is kept, last,
    otherwise.  A result that was dropped does not count. *)
Theorem dedup_snoc (X : list SearchResult) (r : SearchResult) :
  let kept := remove_duplicates X in
  (url r ∈ urls kept ∨ normalized_title r ∈ titles kept →
   remove_duplicates (X ++ [r]) = kept)
  ∧ (url r ∉ urls kept → normalized_title r ∉ titles kept →
     remove_duplicates (X ++ [r]) = (kept ++ [r])%list).
Proof.
  intros kept. subst kept. unfold remove_duplicates.
  rewrite dedup_loop_app. cbn [dedup_loop].
  rewrite !(right_id_L ∅ (∪)).
  split.
  - intros [Hu | Ht].
    + rewrite decide_True by (by apply elem_of_list_to_set). by rewrite app_nil_r.
    + destruct (decide (url r ∈ _)); [by rewrite app_nil_r|].
      rewrite decide_True by (by apply elem_of_list_to_set). by rewrite app_nil_r.
  - intros Hu Ht.
    rewrite decide_False by (by rewrite elem_of_list_to_set).
    by rewrite decide_False by (by rewrite elem_of_list_to_set).
Qed.

(** Two results with the same url: the second one is dropped, also when
    the titles differ. *)
Lemma dedup_snoc_witness :
  remove_duplicates ([older] ++ [mk_result "FIRST REPORT!" "https://a.example/1" None 3])
  = [older].
Proof.
  destruct (dedup_snoc [older] (mk_result "FIRST REPORT!" "https://a.example/1" None 3))
    as [H _].
  apply H. left. by vm_compute; left.
Defined.

End DedupMore.

(** ** The ranker: further properties *)

Module RankerMore.
Import Py PyFacts SearchAggregator SearchAggregatorSpec MoreSpec.













End RankerMore.

(** ** [search]: further properties *)

Module SearchMore.
Import Py PyFacts SearchAggregator SearchAggregatorSpec MoreSpec.
Import Freshness.

Lemma rescore_fields now r :
  url (rescore now r) = url r
  ∧ normalized_title (rescore now r) = normalized_title r
  ∧ published_at (rescore now r) = published_at r.
Proof. done. Qed.

Lemma map_rescore_urls now l : urls (map (rescore now) l) = urls l.
Proof. unfold urls. induction l as [|r l IH]; [done|]. cbn [map]. by rewrite IH. Qed.

Lemma map_rescore_titles now l : titles (map (rescore now) l) = titles l.
Proof. unfold titles. induction l as [|r l IH]; [done|]. cbn [map]. by rewrite IH. Qed.

Lemma rank_results_perm now l : rank_results now l ≡ₚ map (rescore now) l.
Proof. apply Ranker.sorted_by_score_perm. Qed.

Lemma slice_to_prefix {A} (l : list A) top : slice_to l top `prefix_of` l.
Proof. unfold slice_to. destruct (0 <=? top)%Z; apply prefix_take. Qed.

Lemma StronglySorted_prefix {A} (R : A → A → Prop) l k :
  l `prefix_of` k → StronglySorted R k → StronglySorted R l.
Proof.
  intros [t ->]. induction l as [|x l IH]; [constructor|].
  cbn [app]. intros [Hs Hf]%StronglySorted_inv.
  constructor; [by apply IH|].
  apply Forall_app in Hf. tauto.
Qed.

Lemma map_prefix {A B} (f : A → B) (l k : list A) :
  l `prefix_of` k → map f l `prefix_of` map f k.
Proof. intros [t ->]. rewrite map_app. by eexists. Qed.

Lemma NoDup_prefix {A} (l k : list A) : l `prefix_of` k → NoDup k → NoDup l.
Proof. intros [t ->]. by intros [? _]%NoDup_app. Qed.



(** X25. The results that [search] returns stand in descending order of score,
    and no url and no normalized title occurs twice among them. *)
Theorem search_sorted_distinct (net : adapters) (now_filter now_rank : Z)
    (sources : list string) (freshness : string) (top : Z) :
  let out := search net now_filter now_rank sources freshness top in
  StronglySorted score_ge out ∧ NoDup (urls out) ∧ NoDup (titles out).
Proof.
  intros out. subst out. unfold search.
  set (unique := remove_duplicates _).
  pose proof (slice_to_prefix (rank_results now_rank unique) top) as Hpre.
  destruct (DedupMore.dedup_loop_nodup
              (filter_by_freshness now_filter (merge (gather net sources)) freshness)
              ∅ ∅) as [Hu Ht].
  fold (remove_duplicates
          (filter_by_freshness now_filter (merge (gather net sources)) freshness))
    in Hu, Ht. fold unique in Hu, Ht.
  split; [|split].
  - eapply StronglySorted_prefix; [exact Hpre|].
    apply Ranker.sorted_by_score_sorted.
  - eapply NoDup_prefix; [apply map_prefix, Hpre|].
    fold (urls (rank_results now_rank unique)).
    unfold urls. rewrite (Permutation_map url (rank_results_perm now_rank unique)).
    fold (urls (map (rescore now_rank) unique)). by rewrite map_rescore_urls.
  - eapply NoDup_prefix; [apply map_prefix, Hpre|].
    fold (titles (rank_results now_rank unique)).
    unfold titles.
    rewrite (Permutation_map normalized_title (rank_results_perm now_rank unique)).
    fold (titles (map (rescore now_rank) unique)). by rewrite map_rescore_titles.
Qed.



(** X27. Truncation.  The output is the beginning of the ranked list.  For a
    [top] that is not negative it holds the first [top] results, or all
    of them when there are fewer.  A negative [top] is no error: the
    output is then the ranked list without its last [-top] results. *)
Theorem search_truncation (net : adapters) (now_filter now_rank : Z)
    (sources : list string) (freshness : string) (top : Z) :
  let ranked :=
    rank_results now_rank
      (remove_duplicates
         (filter_by_freshness now_filter (merge (gather net sources)) freshness)) in
  let out := search net now_filter now_rank sources freshness top in
  out `prefix_of` ranked
  ∧ Z.of_nat (length out)
    = (if (0 <=? top)%Z then Z.min top (Z.of_nat (length ranked))
       else Z.max 0 (Z.of_nat (length ranked) + top))%Z.
Proof.
  intros ranked out. subst out. unfold search. fold ranked.
  split; [apply slice_to_prefix|].
  unfold slice_to.
  destruct (Z.leb_spec 0 top); rewrite length_take; lia.
Qed.

Lemma gather_nil net sources :
  (∀ s, In s sources → ¬ In s known_sources) → gather net sources = [].
Proof.
  intros Hn. unfold gather.
  rewrite !bool_decide_eq_false_2; [done|..];
    rewrite list_elem_of_In; intros Hin; apply (Hn _ Hin); cbn; tauto.
Qed.

(** X28. When none of the given source names is "reddit", "hackernews" or
    "arxiv" (also when no name is given), no adapter runs and the output
    is empty; an unknown name is ignored, not reported. *)
Theorem search_no_known_source (net : adapters) (now_filter now_rank : Z)
    (sources : list string) (freshness : string) (top : Z) :
  (∀ s, In s sources → ¬ In s known_sources) →
  search net now_filter now_rank sources freshness top = [].
Proof.
  intros Hn. unfold search. rewrite (gather_nil _ _ Hn).
  unfold merge, filter_by_freshness, remove_duplicates, rank_results, sorted_by_score.
  cbn [fold_left List.filter dedup_loop map foldr].
  unfold slice_to. destruct (0 <=? top)%Z; apply take_nil.
Qed.

Lemma search_no_known_source_witness :
  search one_failing sample_now sample_now ["twitter"; "Reddit"] "week" 10 = [].
Proof.
  apply search_no_known_source. cbn [In known_sources].
  intros s [<- | [<- | []]] [H | [H | [H | []]]]; discriminate H.
Defined.

(** X29. Only which names occur among the sources matters, not their order
    nor their repetitions: the adapters are always merged in the order
    reddit, hackernews, arxiv. *)
Theorem search_sources_as_set (net : adapters) (now_filter now_rank : Z)
    (sources sources' : list string) (freshness : string) (top : Z) :
  (∀ s, In s sources ↔ In s sources') →
  search net now_filter now_rank sources freshness top
  = search net now_filter now_rank sources' freshness top.
Proof.
  intros Heq. unfold search, gather.
  by rewrite !(bool_decide_ext (_ ∈ sources) (_ ∈ sources'))
    by (rewrite !list_elem_of_In; apply Heq).
Qed.

Lemma search_sources_as_set_witness :
  search one_failing sample_now sample_now ["hackernews"; "reddit"; "reddit"] "week" 10
  = search one_failing sample_now sample_now ["reddit"; "hackernews"] "week" 10.
Proof.
  apply search_sources_as_set. intros s. cbn [In]. tauto.
Defined.

End SearchMore.

(** ** The detector and the verdict engine together *)

Module Consistency.
Import Py PyFacts FactChecker FactCheckerSpec MoreSpec.
Import VerdictEngine Detector.

Lemma contradiction_inv srcs claim :
  find_contradictions srcs claim ≠ [] →
  (∃ s, In s srcs ∧ is_confirming s = true)
  ∧ (∃ s, In s srcs ∧ is_denying s = true).
Proof.
  unfold find_contradictions. rewrite group_sources_filter.
  destruct (List.filter is_confirming srcs) as [|x xs] eqn:Ec; [done|].
  destruct (List.filter is_denying srcs) as [|y ys] eqn:Ed; [done|].
  intros _. split.
  - exists x. apply filter_In. rewrite Ec. by left.
  - exists y. apply filter_In. rewrite Ed. by left.
Qed.

Lemma count_where_pos p (f : source → string) srcs s :
  In s srcs → p (f s) = true → (1 <= count_where p (map f srcs))%Z.
Proof.
  induction srcs as [|x srcs IH]; [intros []|].
  cbn [map]. rewrite count_where_cons. intros [<- | Hin] Hp.
  - rewrite Hp. pose proof (count_where_nonneg p (map f srcs)). lia.
  - specialize (IH Hin Hp). destruct (p (f x)); lia.
Qed.

(** X13. When a contradiction is reported and every source mentions the
    claim, both signals of the verdict engine are at least 2 and the
    computed verdict is not "unverified". *)
Theorem contradiction_means_signals (srcs : list source) (claim : string) :
  find_contradictions srcs claim ≠ [] →
  (∀ s, In s srcs → counted claim (raw_text s) = true) →
  (2 <= confirm_signals (count_signals (map raw_text srcs) claim))%Z
  ∧ (2 <= deny_signals (count_signals (map raw_text srcs) claim))%Z
  ∧ (analyze_sentiment (map raw_text srcs) claim).1 ≠ "unverified".
Proof.
  intros ((s1 & Hs1 & Hc1) & (s2 & Hs2 & Hd2))%contradiction_inv Hall.
  unfold is_confirming, matches_confirm in Hc1.
  unfold is_denying, matches_deny in Hd2.
  apply andb_true_iff in Hd2 as [_ Hd2].
  apply (proj1 (DetectorMore.detector_cues _)) in Hc1.
  apply (proj2 (DetectorMore.detector_cues _)) in Hd2.
  unfold source_text in Hc1, Hd2.
  assert (H1 : (1 <= count_where
                      (fun t => counted claim t && any_in confirm_words (lower t))
                      (map raw_text srcs))%Z).
  { apply (count_where_pos _ raw_text srcs s1 Hs1). by rewrite (Hall s1 Hs1), Hc1. }
  assert (H2 : (1 <= count_where
                      (fun t => counted claim t && any_in deny_words (lower t))
                      (map raw_text srcs))%Z).
  { apply (count_where_pos _ raw_text srcs s2 Hs2). by rewrite (Hall s2 Hs2), Hd2. }
  pose proof (count_where_nonneg
    (fun t => counted claim t && any_in SUSPICIOUS_WORDS (lower t))
    (map raw_text srcs)) as H3.
  assert (H4 : (1 <= Z.of_nat (length (counted_items (map raw_text srcs) claim)))%Z).
  { apply (count_where_pos (counted claim) raw_text srcs s1 Hs1). by apply Hall. }
  unfold analyze_sentiment, decide_verdict.
  rewrite count_signals_spec. cbn [confirm_signals deny_signals total_mentions].
  split; [lia|]. split; [lia|].
  destruct (Z.eqb_spec (Z.of_nat (length (counted_items (map raw_text srcs) claim))) 0);
    [lia|].
  repeat match goal with
         | |- context [(?a <? ?b)%Z] => destruct (Z.ltb_spec a b)
         end; cbn [orb fst]; try discriminate; lia.
Qed.

Lemma contradiction_means_signals_witness :
  (analyze_sentiment (map raw_text mixed_sources) "merger").1 ≠ "unverified".
Proof.
  destruct (contradiction_means_signals mixed_sources "merger") as (_ & _ & H).
  - by vm_compute.
  - intros s [<- | [<- | []]]; by vm_compute.
  - exact H.
Defined.

End Consistency.

(** ** [search]: nothing fresh is lost *)

Module SearchCoverage.
Import Py PyFacts SearchAggregator SearchAggregatorSpec MoreSpec.
Import Freshness SearchMore.



End SearchCoverage.
